(** * Bookido: the product store and booking service of [sheet.py]

    A shallow embedding of [sheet.py] and the properties of its booking
    workflow.

    Modelling conventions.
    - A Python [str] is a Rocq [string] of ASCII characters.  A text with
      other characters is outside the model: the properties that depend on
      a text not being a number or not being a time ask for an ASCII text.
    - The worksheet [products_sheet] is the list of its data rows (the rows
      under the header), each row a list of text cells.  The header row is
      the fixed column list of the worksheet.  [get_all_records] hands the
      cells over as the spreadsheet client does: a cell that reads as a
      number comes back as that number.  A data row wider than the header
      is outside the model: the properties that read the worksheet ask for
      rows no wider than the header, see [modelled_sheet].
    - Both backends live in one [World]; a call is a function from the
      world to an outcome and the world it leaves behind, so the writes made
      before an exception stay visible, as they do in Python.
    - Network failures of the two services are outside the model. *)

From Stdlib Require Import ZArith NArith Lia.
From Stdlib Require Import Ascii String DecimalString DecimalFacts.
From Stdlib Require DecimalNat DecimalPos DecimalN.
Import DecimalNat.
From stdpp Require Import base list strings.

Local Open Scope Z_scope.
Local Open Scope nat_scope.

(** ** Python string primitives *)

Module Py.

(** [s.split(sep)] for a one-character separator: every occurrence of the
    separator ends a field; the result is never empty. *)
Fixpoint split_from (sep : ascii) (cur : string) (s : string) : list string :=
  match s with
  | EmptyString => [cur]
  | String c s' =>
      if Ascii.eqb c sep then cur :: split_from sep "" s'
      else split_from sep (cur +:+ String c "") s'
  end.

Definition split (sep : ascii) (s : string) : list string :=
  split_from sep "" s.

(** [sep.join(l)] *)
Definition join (sep : string) (l : list string) : string :=
  String.concat sep l.

(** [str(n)] for a non-negative integer. *)
Definition str_nat (n : nat) : string :=
  NilZero.string_of_uint (Nat.to_uint n).

Definition is_digit (c : ascii) : bool :=
  (48 <=? nat_of_ascii c) && (nat_of_ascii c <=? 57).

Definition digit_val (c : ascii) : nat := nat_of_ascii c - 48.

(** The newline character of the literal ['\n']. *)
Definition nl : string := String (ascii_of_nat 10) "".

(** [s.replace(c, '')] for a one-character [c]. *)
Fixpoint remove_char (c : ascii) (s : string) : string :=
  match s with
  | EmptyString => EmptyString
  | String d s' =>
      if Ascii.eqb d c then remove_char c s' else String d (remove_char c s')
  end.

(** [str(n)] and ['%02d' % n] for a non-negative integer given in binary. *)
Definition str_N (n : N) : string :=
  NilZero.string_of_uint (N.to_uint n).

Definition fmt_02d (n : N) : string :=
  if (n <? 10)%N then "0" +:+ str_N n else str_N n.

(** Whitespace as [int] and [float] strip it from an ASCII text: TAB, LF,
    VT, FF, CR and the space. *)
Definition is_space (c : ascii) : bool :=
  let n := nat_of_ascii c in
  ((9 <=? n) && (n <=? 13)) || (n =? 32).

Fixpoint lstrip (s : string) : string :=
  match s with
  | String c s' => if is_space c then lstrip s' else s
  | EmptyString => EmptyString
  end.

Fixpoint rstrip (s : string) : string :=
  match s with
  | EmptyString => EmptyString
  | String c s' =>
      match rstrip s' with
      | EmptyString => if is_space c then EmptyString else String c EmptyString
      | r => String c r
      end
  end.

(** The digits of an integer literal in base 10: a digit, then digits each
    optionally preceded by one underscore.  [acc] is the value read so
    far; [after_digit] tells whether the last character was a digit, which
    is when an underscore may follow and when the literal may end. *)
Fixpoint int_digits (acc : Z) (after_digit : bool) (s : string) : option Z :=
  match s with
  | EmptyString => if after_digit then Some acc else None
  | String c s' =>
      if is_digit c then
        int_digits (10 * acc + Z.of_nat (digit_val c))%Z true s'
      else if Ascii.eqb c "_" && after_digit then int_digits acc false s'
      else None
  end.

(** [int(s)] for an ASCII text of at most [max_str_digits] characters:
    [None] stands for [ValueError].  Surrounding whitespace is dropped, one
    sign is accepted, leading zeros are allowed.  The interpreter refuses a
    literal of more than 4300 digits, which this definition would read: the
    properties that assume a text is read bound its length. *)
Definition int (s : string) : option Z :=
  match rstrip (lstrip s) with
  | String "-" r => Z.opp <$> int_digits 0 false r
  | String "+" r => int_digits 0 false r
  | r => int_digits 0 false r
  end.

(** The longest text [int] reads whatever its digits are. *)
Definition max_str_digits : nat := 4300.

(** ASCII text. *)
Fixpoint is_ascii (s : string) : bool :=
  match s with
  | EmptyString => true
  | String c s' => (nat_of_ascii c <? 128) && is_ascii s'
  end.

(** The texts on which [int] is as defined here: ASCII and within the digit
    limit. *)
Definition modelled (s : string) : bool :=
  is_ascii s && (String.length s <=? max_str_digits).

(** [str(z)] for an integer. *)
Definition str_int (z : Z) : string :=
  match z with
  | Zneg p => "-" +:+ str_N (Npos p)
  | _ => str_N (Z.to_N z)
  end.

(** *** [float] *)

(** A binary64 value: [Finite neg m e] is [m * 2 ^ e], negated when [neg]
    is set, with [m < 2 ^ 53] and [-1074 <= e <= 971]; zero has [m = 0]. *)
Inductive float : Type :=
| Finite (neg : bool) (m : N) (e : Z)
| Infinite (neg : bool)
| NaN.

(** ASCII lower case, for the case-insensitive match of [inf] and [nan]. *)
Definition lower (c : ascii) : ascii :=
  let n := nat_of_ascii c in
  if (65 <=? n) && (n <=? 90) then ascii_of_nat (n + 32) else c.

Fixpoint lower_str (s : string) : string :=
  match s with
  | EmptyString => EmptyString
  | String c s' => String (lower c) (lower_str s')
  end.

(** The underscores of a numeric literal: each one stands between two
    digits.  [prev] is the character before [s]; the result is the literal
    without them, or [None] when one is misplaced. *)
Fixpoint drop_underscores (prev : ascii) (s : string) : option string :=
  match s with
  | EmptyString => if Ascii.eqb prev "_" then None else Some EmptyString
  | String c s' =>
      if Ascii.eqb c "_" then
        if is_digit prev then drop_underscores c s' else None
      else if Ascii.eqb prev "_" && negb (is_digit c) then None
      else String c <$> drop_underscores c s'
  end.

(** The longest prefix of digits and what follows it. *)
Fixpoint span_digits (s : string) : string * string :=
  match s with
  | String c s' =>
      if is_digit c then
        let '(d, r) := span_digits s' in (String c d, r)
      else (EmptyString, s)
  | EmptyString => (EmptyString, EmptyString)
  end.

(** The value of a string of digits. *)
Fixpoint digits_value (acc : Z) (s : string) : Z :=
  match s with
  | EmptyString => acc
  | String c s' => digits_value (10 * acc + Z.of_nat (digit_val c))%Z s'
  end.

(** A sign and what follows it. *)
Definition split_sign (s : string) : bool * string :=
  match s with
  | String c r =>
      if Ascii.eqb c "-" then (true, r)
      else if Ascii.eqb c "+" then (false, r)
      else (false, s)
  | EmptyString => (false, s)
  end.

(** A decimal literal without sign: digits with an optional point, at
    least one digit, and an optional exponent that has digits.  The result
    is the integer [d] of all the digits and the power of ten [q] such that
    the literal is [d * 10 ^ q]; [None] when the text is no such literal. *)
Definition parse_decimal (s : string) : option (Z * Z) :=
  let '(ip, r1) := span_digits s in
  let '(fp, r2) :=
    match r1 with
    | String "." r => span_digits r
    | _ => (EmptyString, r1)
    end in
  let digits := ip +:+ fp in
  if String.eqb digits "" then None
  else
    let d := digits_value 0 digits in
    let q := (- Z.of_nat (String.length fp))%Z in
    match r2 with
    | EmptyString => Some (d, q)
    | String c r3 =>
        if Ascii.eqb (lower c) "e" then
          let '(eneg, r4) := split_sign r3 in
          let '(ed, r5) := span_digits r4 in
          if String.eqb ed "" || negb (String.eqb r5 "") then None
          else
            let x := digits_value 0 ed in
            Some (d, (q + (if eneg then - x else x))%Z)
        else None
    end.

(** Rounding of the quotient of two positive integers to the nearest
    integer, a tie going to the even one. *)
Definition round_half_even (num den : Z) : Z :=
  let q := (num / den)%Z in
  let r := (num mod den)%Z in
  if (2 * r <? den)%Z then q
  else if (den <? 2 * r)%Z then (q + 1)%Z
  else if Z.even q then q else (q + 1)%Z.

(** [2 ^ e] and [10 ^ e] when [e] is positive, and 1 otherwise. *)
Definition pow2 (e : Z) : Z := (2 ^ Z.max 0 e)%Z.
Definition pow10 (e : Z) : Z := (10 ^ Z.max 0 e)%Z.

(** The binary64 value nearest to [d * 10 ^ q], for [d >= 0]. *)
Definition of_decimal (neg : bool) (d q : Z) : float :=
  if (d <=? 0)%Z then Finite neg 0 0
  else
    let num := (d * pow10 q)%Z in
    let den := pow10 (- q) in
    let k0 := (Z.log2 num - Z.log2 den)%Z in
    let k := if (num * pow2 (- k0) <? den * pow2 k0)%Z then (k0 - 1)%Z else k0 in
    let e := Z.max (k - 52) (-1074) in
    let m := round_half_even (num * pow2 (- e)) (den * pow2 e) in
    let '(m, e) := if (m =? 2 ^ 53)%Z then (2 ^ 52, e + 1)%Z else (m, e) in
    if (971 <? e)%Z then Infinite neg
    else if (m =? 0)%Z then Finite neg 0 0
    else Finite neg (Z.to_N m) e.

(** [float(s)] after the surrounding whitespace and the underscores are
    gone. *)
Definition parse_float (s : string) : option float :=
  let '(neg, r) := split_sign s in
  match parse_decimal r with
  | Some (d, q) => Some (of_decimal neg d q)
  | None =>
      let l := lower_str r in
      if String.eqb l "inf" || String.eqb l "infinity" then Some (Infinite neg)
      else if String.eqb l "nan" then Some NaN
      else None
  end.

(** [float(s)]; [None] stands for [ValueError]. *)
Definition float_of_str (s : string) : option float :=
  match drop_underscores "000" (rstrip (lstrip s)) with
  | Some t => parse_float t
  | None => None
  end.

(** Order of [a * 10 ^ j] and [b * 2 ^ e], for positive [a] and [b]. *)
Definition compare_scaled (a j b e : Z) : comparison :=
  (a * pow10 j * pow2 (- e) ?= b * pow2 e * pow10 (- j))%Z.

(** Whether [c * 10 ^ j] is read back as [m * 2 ^ e]: it lies between the
    midpoints to the two neighbours of that value, a midpoint counting when
    [m] is even.  In units of [2 ^ (e - 2)] the value is [4 * m]. *)
Definition reads_as (m e c j : Z) : bool :=
  let below := if (m =? 2 ^ 52)%Z && (-1074 <? e)%Z then 1%Z else 2%Z in
  let lo := (4 * m - below)%Z in
  let hi := (4 * m + 2)%Z in
  let closed := Z.even m in
  let above_lo :=
    match compare_scaled c j lo (e - 2) with
    | Gt => true | Eq => closed | Lt => false
    end in
  let below_hi :=
    match compare_scaled c j hi (e - 2) with
    | Lt => true | Eq => closed | Gt => false
    end in
  above_lo && below_hi.

(** The decimal exponent [k] with [10 ^ k <= m * 2 ^ e < 10 ^ (k + 1)],
    from an estimate corrected step by step. *)
Fixpoint adjust_log10 (fuel : nat) (m e k : Z) : Z :=
  match fuel with
  | O => k
  | S fuel' =>
      match compare_scaled 1 k m e with
      | Gt => adjust_log10 fuel' m e (k - 1)%Z
      | _ =>
          match compare_scaled 1 (k + 1) m e with
          | Gt => k
          | _ => adjust_log10 fuel' m e (k + 1)%Z
          end
      end
  end.

Definition floor_log10 (m e : Z) : Z :=
  adjust_log10 8 m e (((Z.log2 m + e) * 30103) / 100000)%Z.

(** The shortest decimal [c * 10 ^ j] that is read back as [m * 2 ^ e],
    trying [n], [n + 1], ... significant digits; among two of a length the
    nearer one, the even one on a tie. *)
Fixpoint shortest (fuel : nat) (m e k : Z) (n : Z) : Z * Z :=
  let j := (k + 1 - n)%Z in
  let num := (m * pow2 e * pow10 (- j))%Z in
  let den := (pow2 (- e) * pow10 j)%Z in
  let lo := (num / den)%Z in
  let hi := (lo + 1)%Z in
  match fuel with
  | O => (round_half_even num den, j)
  | S fuel' =>
      let lo_ok := reads_as m e lo j in
      let hi_ok := reads_as m e hi j in
      if lo_ok && hi_ok then (round_half_even num den, j)
      else if lo_ok then (lo, j)
      else if hi_ok then (hi, j)
      else shortest fuel' m e k (n + 1)%Z
  end.

Fixpoint strip_zeros (fuel : nat) (c j : Z) : Z * Z :=
  match fuel with
  | O => (c, j)
  | S fuel' =>
      if (c mod 10 =? 0)%Z then strip_zeros fuel' (c / 10)%Z (j + 1)%Z
      else (c, j)
  end.

Fixpoint zeros (n : nat) : string :=
  match n with
  | O => EmptyString
  | S n' => String "0" (zeros n')
  end.

Fixpoint take_str (n : nat) (s : string) : string :=
  match n, s with
  | S n', String c s' => String c (take_str n' s')
  | _, _ => EmptyString
  end.

Fixpoint drop_str (n : nat) (s : string) : string :=
  match n, s with
  | S n', String c s' => drop_str n' s'
  | _, _ => s
  end.

(** The exponent of the scientific form: a sign and at least two digits. *)
Definition str_exponent (x : Z) : string :=
  let a := Z.abs_N x in
  (if (x <? 0)%Z then "-" else "+")
    +:+ (if (a <? 10)%N then "0" +:+ str_N a else str_N a).

(** [repr] of a positive finite value from its shortest digits [ds] and the
    position [decpt] of the point after the first [decpt] digits. *)
Definition format_repr (ds : string) (decpt : Z) : string :=
  let nd := Z.of_nat (String.length ds) in
  if (decpt <=? -4)%Z || (16 <? decpt)%Z then
    match ds with
    | String c rest =>
        String c (match rest with
                  | EmptyString => EmptyString
                  | _ => "." +:+ rest
                  end)
          +:+ "e" +:+ str_exponent (decpt - 1)
    | EmptyString => EmptyString
    end
  else if (decpt <=? 0)%Z then
    "0." +:+ zeros (Z.to_nat (- decpt)) +:+ ds
  else if (nd <=? decpt)%Z then
    ds +:+ zeros (Z.to_nat (decpt - nd)) +:+ ".0"
  else
    take_str (Z.to_nat decpt) ds +:+ "." +:+ drop_str (Z.to_nat decpt) ds.

(** [str(x)] for a float. *)
Definition str_float (x : float) : string :=
  match x with
  | NaN => "nan"
  | Infinite neg => if neg then "-inf" else "inf"
  | Finite neg m e =>
      (if neg then "-" else "")
        +:+ (match m with
             | N0 => "0.0"
             | _ =>
                 let mz := Z.of_N m in
                 let '(c, j) := shortest 17 mz e (floor_log10 mz e) 1 in
                 let '(c, j) := strip_zeros 20 c j in
                 let ds := str_N (Z.to_N c) in
                 format_repr ds (Z.of_nat (String.length ds) + j)
             end)
  end.

End Py.

(** [c in s] *)
Fixpoint contains (c : ascii) (s : string) : bool :=
  match s with
  | EmptyString => false
  | String d s' => Ascii.eqb d c || contains c s'
  end.

(** ** Data model *)

Record Product := mkProduct {
  id : string;
  calendar_id : string;
  title : string;
  description : string;
  address : string;
  capacity : string;
  price : string;
  date : string;
  time : string;
  emails : string
}.

Record ProductRow := mkProductRow {
  row_num : nat;
  product : Product
}.

Inductive exn : Type :=
| ProductNotFoundException (msg : string)
| CapacityReachedException (msg : string)
| ValueError
| KeyError (key : string)
| NameError (name : string)
| APIError.

(** ** Calendar events *)

Record EventTime := mkEventTime {
  dateTime : string;
  timeZone : string
}.

Record Event := mkEvent {
  ev_id : string;
  ev_summary : string;
  ev_location : string;
  ev_description : string;
  ev_start : EventTime;
  ev_end : EventTime
}.

(** ** The world: worksheet, calendar and the random source *)

Record World := mkWorld {
  products_sheet : list (list string);
  calendar : list Event;
  urandom : nat -> N;
  urandom_pos : nat
}.

(** ** Calls: state passing with exceptions *)

Definition M (A : Type) : Type := World -> (exn + A) * World.

Definition ret {A} (a : A) : M A := fun w => (inr a, w).

Definition raise {A} (e : exn) : M A := fun w => (inl e, w).

Definition bind {A B} (m : M A) (k : A -> M B) : M B :=
  fun w =>
    match m w with
    | (inr a, w') => k a w'
    | (inl e, w') => (inl e, w')
    end.

Global Instance M_ret : MRet M := @ret.
Global Instance M_bind : MBind M := fun A B k m => bind m k.

Definition outcome {A} (r : (exn + A) * World) : exn + A := fst r.
Definition world_after {A} (r : (exn + A) * World) : World := snd r.

(** ** The [datetime] operations used by [add_product] *)

Module Datetime.

(** A [datetime] with its date as a proleptic Gregorian ordinal. *)
Record datetime := mkDatetime {
  ordinal : N;
  hour : N;
  minute : N;
  second : N
}.

(** The ordinal of 1900-01-01, the date [strptime] fills in when the
    format has no date directive. *)
Definition default_ordinal : N := 693596.

Definition in_range (lo hi : nat) (c : ascii) : bool :=
  (lo <=? nat_of_ascii c) && (nat_of_ascii c <=? hi).

(** One alternative of a directive's pattern made of two character
    classes; the result lists the ways it matches a prefix of [s]. *)
Definition two_chars (c1 c2 : ascii -> bool) (s : string) : list (N * string) :=
  match s with
  | String a (String b r) =>
      if c1 a && c2 b then [(N.of_nat (10 * Py.digit_val a + Py.digit_val b), r)] else []
  | _ => []
  end.

Definition one_digit (s : string) : list (N * string) :=
  match s with
  | String a r => if Py.is_digit a then [(N.of_nat (Py.digit_val a), r)] else []
  | EmptyString => []
  end.

Definition literal (c : ascii) (s : string) : list string :=
  match s with
  | String a r => if Ascii.eqb a c then [r] else []
  | EmptyString => []
  end.

(** [%H] is [2[0-3]|[0-1]\d|\d], [%M] is [[0-5]\d|\d] and [%S] is
    [6[0-1]|[0-5]\d|\d]; alternatives are tried from left to right. *)
Definition re_H (s : string) : list (N * string) :=
  two_chars (in_range 50 50) (in_range 48 51) s
    ++ two_chars (in_range 48 49) Py.is_digit s ++ one_digit s.

Definition re_M (s : string) : list (N * string) :=
  two_chars (in_range 48 53) Py.is_digit s ++ one_digit s.

Definition re_S (s : string) : list (N * string) :=
  two_chars (in_range 54 54) (in_range 48 49) s
    ++ two_chars (in_range 48 53) Py.is_digit s ++ one_digit s.

(** All matches of the pattern of ['%H:%M:%S'] at the start of [s], in
    the order a backtracking matcher finds them. *)
Definition matches_HMS (s : string) : list (N * N * N * string) :=
  '(h, r1) ← re_H s;
  r2 ← literal ":" r1;
  '(m, r3) ← re_M r2;
  r4 ← literal ":" r3;
  '(sec, r5) ← re_S r4;
  [(h, m, sec, r5)].

(** [datetime.strptime(s, '%H:%M:%S')]; [None] stands for [ValueError]:
    no match, unconverted data after the match, or a second of 60 or 61,
    which the pattern admits and the [datetime] constructor refuses. *)
Definition strptime_HMS (s : string) : option datetime :=
  match head (matches_HMS s) with
  | None => None
  | Some (h, m, sec, rest) =>
      if negb (String.eqb rest "") then None
      else if (59 <? sec)%N then None
      else Some (mkDatetime default_ordinal h m sec)
  end.

(** [dt + timedelta(minutes=n)] *)
Definition add_minutes (dt : datetime) (n : N) : datetime :=
  let seconds := (hour dt * 3600 + minute dt * 60 + second dt + n * 60)%N in
  let days := (ordinal dt + seconds / 86400)%N in
  let rem := (seconds mod 86400)%N in
  mkDatetime days (rem / 3600)%N ((rem mod 3600) / 60)%N ((rem mod 3600) mod 60)%N.

(** [dt.strftime('%H:%M:%S')] *)
Definition strftime_HMS (dt : datetime) : string :=
  Py.fmt_02d (hour dt) +:+ ":" +:+ Py.fmt_02d (minute dt) +:+ ":"
    +:+ Py.fmt_02d (second dt).

End Datetime.

(** ** The spreadsheet backend *)

Module Sheet.

(** Modelled from the spec: the header row of the worksheet [products],
    which is data of the spreadsheet and not part of [sheet.py]. *)
Definition HEADER : list string :=
  ["id"; "calendar_id"; "title"; "description"; "address"; "capacity";
   "price"; "date"; "time"; "emails"].

(** What a cell is handed over as: its text, or the number it reads as. *)
Inductive value : Type :=
| VStr (s : string)
| VInt (z : Z)
| VFloat (f : Py.float).

(** [numericise(value)] with the defaults of [get_all_records]: a text with
    an underscore is kept; otherwise the text without its commas is tried
    as an [int], then as a [float]; a text that is neither is kept. *)
Definition numericise (v : string) : value :=
  if contains "_" v then VStr v
  else
    let cleaned := Py.remove_char "," v in
    match Py.int cleaned with
    | Some z => VInt z
    | None =>
        match Py.float_of_str cleaned with
        | Some f => VFloat f
        | None => VStr v
        end
    end.

(** A record of [get_all_records]: the header keys zipped with the values
    of the cells of a row. *)
Definition record := list (string * value).

Definition pad (n : nat) (cells : list string) : list string :=
  cells ++ replicate (n - length cells) "".

Definition to_record (cells : list string) : record :=
  zip HEADER (numericise <$> pad (length HEADER) cells).

(** [p[key]] *)
Fixpoint getitem (key : string) (p : record) : option value :=
  match p with
  | [] => None
  | (k, v) :: rest => if String.eqb k key then Some v else getitem key rest
  end.

(** [products_sheet.get_all_records()] *)
Definition get_all_records : M (list record) :=
  fun w => (inr (to_record <$> products_sheet w), w).

(** [products_sheet.append_row(values)] *)
Definition append_row (values : list string) : M unit :=
  fun w =>
    (inr tt,
     mkWorld (products_sheet w ++ [values]) (calendar w)
             (urandom w) (urandom_pos w)).

(** [products_sheet.update_cell(row, col, value)], rows and columns
    counted from 1.  Row 1 is the header, which this model keeps fixed: a
    write to it is refused like a write outside the grid.  A write below
    the last data row or right of the last cell fills the gap with blank
    cells. *)
Definition update_cell (row col : nat) (value : string) : M unit :=
  fun w =>
    if (row <? 2) || (col <? 1) then (inl APIError, w)
    else
      let i := row - 2 in
      let j := col - 1 in
      let grid := products_sheet w ++ replicate (S i - length (products_sheet w)) [] in
      let grid' := alter (fun cells => <[j := value]> (pad (S j) cells)) i grid in
      (inr tt, mkWorld grid' (calendar w) (urandom w) (urandom_pos w)).

End Sheet.

(** ** The calendar backend *)

Module Gcalendar.

(** Modelled from the spec: [add_event] of the module [gcalendar], which
    is not part of [sheet.py]; the calendar service keeps the events it
    was given. *)
Definition add_event (event : Event) : M unit :=
  fun w =>
    (inr tt,
     mkWorld (products_sheet w) (calendar w ++ [event])
             (urandom w) (urandom_pos w)).

Definition set_description (d : string) (ev : Event) : Event :=
  mkEvent (ev_id ev) (ev_summary ev) (ev_location ev) d (ev_start ev) (ev_end ev).

(** Modelled from the spec: [update_event_description] of the module
    [gcalendar], which is not part of [sheet.py]; the description of the
    event with the given id is replaced. *)
Definition update_event_description (cid : string) (d : string) : M unit :=
  fun w =>
    (inr tt,
     mkWorld (products_sheet w)
             ((fun ev => if String.eqb (ev_id ev) cid then set_description d ev else ev)
                <$> calendar w)
             (urandom w) (urandom_pos w)).

End Gcalendar.

(** ** [sheet.py] *)

Import Sheet Gcalendar.

Definition GMT_OFF : string := "+01:00".

(** Lifting of a partial builtin: [None] becomes the exception [e]. *)
Definition or_raise {A} (e : exn) (o : option A) : M A :=
  match o with
  | Some a => mret a
  | None => raise e
  end.

(** Evaluation of an expression that may raise. *)
Definition E (A : Type) : Type := exn + A.

Global Instance E_ret : MRet E := fun A a => inr a.
Global Instance E_bind : MBind E := fun A B k m =>
  match m with
  | inr a => k a
  | inl e => inl e
  end.

(** [p[key]]; a missing key is a [KeyError]. *)
Definition item (key : string) (p : record) : E value :=
  from_option inr (inl (KeyError key)) (getitem key p).

(** The value a [str] field of a [BaseModel] takes: a text as it is, a
    number as its [str]. *)
Definition str_validator (v : value) : string :=
  match v with
  | VStr s => s
  | VInt z => Py.str_int z
  | VFloat f => Py.str_float f
  end.

(** [Product(id=p['id'], calendar_id=p['calendar_id'], ...)] *)
Definition product_of_record (p : record) : E Product :=
  a ← item "id" p;
  b ← item "calendar_id" p;
  c ← item "title" p;
  d ← item "description" p;
  e ← item "address" p;
  f ← item "capacity" p;
  g ← item "price" p;
  h ← item "date" p;
  i ← item "time" p;
  j ← item "emails" p;
  mret (mkProduct (str_validator a) (str_validator b) (str_validator c)
          (str_validator d) (str_validator e) (str_validator f)
          (str_validator g) (str_validator h) (str_validator i)
          (str_validator j)).

(** The list comprehension of [list_products]: rows are numbered from 2 in
    the order of the records; the first failing element aborts it. *)
Fixpoint enumerate_rows (i : nat) (products : list record) : E (list ProductRow) :=
  match products with
  | [] => mret []
  | p :: rest =>
      prod ← product_of_record p;
      rows ← enumerate_rows (S i) rest;
      mret (mkProductRow (i + 2) prod :: rows)
  end.

Definition list_products : M (list ProductRow) :=
  products ← get_all_records;
  match enumerate_rows 0 products with
  | inr rows => mret rows
  | inl e => raise e
  end.

(** The [for] loop of [get_product_row]: the first row whose product has
    the id is returned. *)
Fixpoint scan_rows (product_id : string) (rows : list ProductRow) : M ProductRow :=
  match rows with
  | [] => raise (ProductNotFoundException "product not found")
  | product_row :: rest =>
      if String.eqb (id (product product_row)) product_id
      then mret product_row
      else scan_rows product_id rest
  end.

Definition get_product_row (product_id : string) : M ProductRow :=
  rows ← list_products;
  scan_rows product_id rows.

Definition build_description (product_description product_capacity : string)
    (num_booked : nat) : string :=
  product_description +:+ " (" +:+ Py.str_nat num_booked +:+ "/"
    +:+ product_capacity +:+ ")".

(** [product.emails.split(',') if product.emails != '' else []] *)
Definition stored_emails (cell : string) : list string :=
  if String.eqb cell "" then [] else Py.split "," cell.

Definition add_booking (product_id email : string) : M unit :=
  product_row ← get_product_row product_id;
  let p := product product_row in
  let booked := stored_emails (emails p) in
  cap ← or_raise ValueError (Py.int (capacity p));
  if (Z.of_nat (length booked) >? cap - 1)%Z
  then raise (CapacityReachedException "capacity reached")
  else
    let booked := booked ++ [email] in
    let emails_to_store :=
      if length booked =? 1 then email else Py.join "," booked in
    update_cell (row_num product_row) 10 emails_to_store;;
    let text := build_description (description p) (capacity p) (length booked) in
    let text := text +:+ Py.nl +:+ Py.join Py.nl (Py.split "," emails_to_store) in
    update_event_description (calendar_id p) text.

Definition convert_to_gcalendar_friendly_date (date time : string) : string :=
  date +:+ "T" +:+ time +:+ GMT_OFF.

(** [list(product.dict().values())]: the fields in declaration order. *)
Definition dict_values (p : Product) : list string :=
  [id p; calendar_id p; title p; description p; address p; capacity p;
   price p; date p; time p; emails p].

Definition add_product (p : Product) : M unit :=
  let product_values := dict_values p in
  append_row product_values;;
  start ← or_raise ValueError (Datetime.strptime_HMS (time p));
  let event :=
    mkEvent (calendar_id p) (title p) (address p)
      (build_description (description p) (capacity p) 0)
      (mkEventTime (convert_to_gcalendar_friendly_date (date p) (time p))
         "America/Los_Angeles")
      (mkEventTime
         (convert_to_gcalendar_friendly_date (date p)
            (Datetime.strftime_HMS (Datetime.add_minutes start 45)))
         "America/Los_Angeles") in
  add_event event.

Definition generate_new_product_id : M string :=
  records ← get_all_records;
  mret (Py.str_nat (length records)).

(** ** [uuid.uuid4] *)

Module Uuid.

(** Sixteen bytes of [os.urandom], read as one big-endian integer. *)
Definition urandom16 : M N :=
  fun w =>
    (inr (urandom w (urandom_pos w) mod 2 ^ 128)%N,
     mkWorld (products_sheet w) (calendar w) (urandom w) (S (urandom_pos w))).

(** The variant and version bits of a version 4 UUID. *)
Definition set_version4 (n : N) : N :=
  let n := N.ldiff n (N.shiftl 49152 48) in
  let n := N.lor n (N.shiftl 32768 48) in
  let n := N.ldiff n (N.shiftl 61440 64) in
  N.lor n (N.shiftl 4 76).

Definition hex_digit (n : N) : ascii :=
  if (n <? 10)%N then ascii_of_N (48 + n) else ascii_of_N (87 + n).

(** ['%0kx' % n], the [k] low hexadecimal digits of [n]. *)
Fixpoint hex (k : nat) (n : N) : string :=
  match k with
  | O => ""
  | S k' => hex k' (n / 16)%N +:+ String (hex_digit (n mod 16)%N) ""
  end.

(** [str(UUID(int=n))] *)
Definition str (n : N) : string :=
  let h := hex 32 n in
  String.substring 0 8 h +:+ "-" +:+ String.substring 8 4 h +:+ "-"
    +:+ String.substring 12 4 h +:+ "-" +:+ String.substring 16 4 h +:+ "-"
    +:+ String.substring 20 12 h.

Definition uuid4 : M N :=
  n ← urandom16;
  mret (set_version4 n).

End Uuid.

Definition generate_calendar_id : M string :=
  u ← Uuid.uuid4;
  mret (Py.remove_char "-" (Uuid.str u)).

(** The last statement calls [add_product] on the name [sample_product],
    which the module never binds: evaluating the argument raises
    [NameError] before [add_product] is entered. *)
Definition add_product_raw (title description address price capacity date time : string)
    : M unit :=
  calendar_id ← generate_calendar_id;
  product_id ← generate_new_product_id;
  let new_product :=
    mkProduct product_id calendar_id title description address capacity
      price date time "" in
  raise (NameError "sample_product").

(** ** Reading the worksheet as a table of products *)

(** The text a field takes from a cell that holds [s]. *)
Definition read_text (s : string) : string :=
  str_validator (numericise s).

(** The text read from column [k] (from 0) of a row; a missing cell is
    blank. *)
Definition cell (k : nat) (cells : list string) : string :=
  read_text (default "" (cells !! k)).

Definition product_of_cells (cells : list string) : Product :=
  mkProduct (cell 0 cells) (cell 1 cells) (cell 2 cells) (cell 3 cells)
    (cell 4 cells) (cell 5 cells) (cell 6 cells) (cell 7 cells)
    (cell 8 cells) (cell 9 cells).

(** The product rows of a worksheet: data row [i] (from 0) has number [i + 2]. *)
Definition rows_of (sheet : list (list string)) : list ProductRow :=
  imap (fun i cells => mkProductRow (i + 2) (product_of_cells cells)) sheet.

Definition set_emails (v : string) (p : Product) : Product :=
  mkProduct (id p) (calendar_id p) (title p) (description p) (address p)
    (capacity p) (price p) (date p) (time p) v.

(** The write [add_booking] makes to the worksheet: column 10 of the row. *)
Definition write_emails (v : string) (cells : list string) : list string :=
  <[9 := v]> (pad 10 cells).

(** The first row of [rows] whose product has the id, as [get_product_row]
    finds it. *)
Definition first_with_id (product_id : string) (rows : list ProductRow)
    : option (nat * ProductRow) :=
  list_find (fun r => id (product r) = product_id) rows.

(** [s] holds no occurrence of the character [sep]. *)
Definition sep_free (sep : ascii) (s : string) : Prop := contains sep s = false.

(** The number of emails kept in the cell of a product. *)
Definition email_count (p : Product) : nat :=
  length (stored_emails (emails p)).

(** ** The effect of a booking that goes through *)

(** The text written to the emails cell. *)
Definition booking_cell (p : Product) (email : string) : string :=
  Py.join "," (stored_emails (emails p) ++ [email]).

(** The description pushed to the calendar event. *)
Definition booking_text (p : Product) (email : string) : string :=
  build_description (description p) (capacity p)
    (length (stored_emails (emails p) ++ [email]))
    +:+ Py.nl +:+ Py.join Py.nl (Py.split "," (booking_cell p email)).

(** The world after data row [i], holding product [p], took the booking. *)
Definition booked (w : World) (i : nat) (p : Product) (email : string) : World :=
  mkWorld
    (alter (write_emails (booking_cell p email)) i (products_sheet w))
    ((fun ev =>
        if String.eqb (ev_id ev) (calendar_id p)
        then set_description (booking_text p email) ev else ev) <$> calendar w)
    (urandom w) (urandom_pos w).

(** The product row as it reads once [email] is booked on it. *)
Definition booked_row (row : ProductRow) (email : string) : ProductRow :=
  mkProductRow (row_num row)
    (set_emails (read_text (booking_cell (product row) email)) (product row)).

(** The number of emails stored in the row an id resolves to, and the text
    of its emails cell; [None] when the lookup raises. *)
Definition emails_stored (product_id : string) (w : World) : option nat :=
  match outcome (get_product_row product_id w) with
  | inr row => Some (email_count (product row))
  | inl _ => None
  end.

Definition emails_cell (product_id : string) (w : World) : option string :=
  match outcome (get_product_row product_id w) with
  | inr row => Some (emails (product row))
  | inl _ => None
  end.

(** ** Outcomes *)

Definition raises_CapacityReached {A} (r : (exn + A) * World) : Prop :=
  exists msg, outcome r = inl (CapacityReachedException msg).

Definition raises_ProductNotFound {A} (r : (exn + A) * World) : Prop :=
  exists msg, outcome r = inl (ProductNotFoundException msg).

(** ** Worksheets and products within the model *)

(** A row no wider than the header, each cell an ASCII text within the
    digit limit of [int]. *)
Definition modelled_row (cells : list string) : bool :=
  (length cells <=? length Sheet.HEADER) && forallb Py.modelled cells.

Definition modelled_sheet (w : World) : bool :=
  forallb modelled_row (products_sheet w).

(** A text that a cell hands back as it was written. *)
Definition plain_text (s : string) : bool :=
  Py.modelled s && String.eqb (read_text s) s.

Definition plain_product (p : Product) : bool :=
  forallb plain_text (dict_values p).

(** ** Worlds used to run the model *)

Module Sample.

Definition no_random : nat -> N := fun _ => 0%N.

Definition yoga_cells : list string :=
  ["0"; "c0"; "Yoga"; "Morning class"; "Main St 1"; "2"; "10";
   "2024-05-01"; "10:00:00"; ""].

Definition yoga : Product :=
  mkProduct "0" "c0" "Yoga" "Morning class" "Main St 1" "2" "10"
    "2024-05-01" "10:00:00" "".

Definition yoga_event : Event :=
  mkEvent "c0" "Yoga" "Main St 1" "Morning class (0/2)"
    (mkEventTime "2024-05-01T10:00:00+01:00" "America/Los_Angeles")
    (mkEventTime "2024-05-01T10:45:00+01:00" "America/Los_Angeles").

(** One product with two free places. *)
Definition studio : World :=
  mkWorld [yoga_cells] [yoga_event] no_random 0.

Definition empty : World := mkWorld [] [] no_random 0.

(** A product whose time has no seconds, and one late in the evening. *)
Definition no_seconds : Product :=
  mkProduct "1" "c1" "Pilates" "Evening class" "Main St 1" "3" "12"
    "2024-05-02" "10:00" "".

Definition late : Product :=
  mkProduct "2" "c2" "Night run" "Late class" "Main St 1" "3" "12"
    "2024-05-02" "23:30:00" "".

(** One product with a single place. *)
Definition solo : World :=
  mkWorld
    [["0"; "c0"; "Yoga"; "Morning class"; "Main St 1"; "1"; "10";
      "2024-05-01"; "10:00:00"; ""]]
    [] no_random 0.

End Sample.

(** ** Notions used by the further properties *)

(** An email text that [add_booking] stores as one entry. *)
Definition well_formed_email (email : string) : Prop :=
  email <> "" /\ contains "," email = false.

(** Every row whose capacity reads as an integer stores at most that many
    emails. *)
Definition capacity_respected (w : World) : Prop :=
  forall row c,
    row ∈ rows_of (products_sheet w) ->
    Py.int (capacity (product row)) = Some c ->
    (Z.of_nat (email_count (product row)) <= c)%Z.

(** The id of every data row is the decimal text of its index, as it is
    when each product was added under the id [generate_new_product_id]
    gave for it. *)
Definition ids_sequential (w : World) : Prop :=
  forall i row,
    rows_of (products_sheet w) !! i = Some row ->
    id (product row) = Py.str_nat i.

(** A [datetime] on the default date with a time of day. *)
Definition valid_time (dt : Datetime.datetime) : Prop :=
  Datetime.ordinal dt = Datetime.default_ordinal
  /\ (Datetime.hour dt < 24)%N
  /\ (Datetime.minute dt < 60)%N
  /\ (Datetime.second dt < 60)%N.

(** The numbers below [n]. *)
Definition N_below (n : nat) : list N := N.of_nat <$> seq 0 n.

Definition datetime_eqb (a b : Datetime.datetime) : bool :=
  (Datetime.ordinal a =? Datetime.ordinal b)%N
  && (Datetime.hour a =? Datetime.hour b)%N
  && (Datetime.minute a =? Datetime.minute b)%N
  && (Datetime.second a =? Datetime.second b)%N.

(** Formatting the time of day [h:m:s] and parsing the text gives it back. *)
Definition reads_back (h m s : N) : bool :=
  let dt := Datetime.mkDatetime Datetime.default_ordinal h m s in
  match Datetime.strptime_HMS (Datetime.strftime_HMS dt) with
  | Some dt' => datetime_eqb dt' dt
  | None => false
  end.

Definition all_read_back : bool :=
  forallb
    (fun h => forallb (fun m => forallb (reads_back h m) (N_below 60)) (N_below 60))
    (N_below 24).

(** A lowercase hexadecimal digit. *)
Definition is_hex_char (c : ascii) : bool :=
  Py.is_digit c || ((97 <=? nat_of_ascii c) && (nat_of_ascii c <=? 102)).

Fixpoint string_forall (f : ascii -> bool) (s : string) : bool :=
  match s with
  | EmptyString => true
  | String c s' => f c && string_forall f s'
  end.

(** The seconds since midnight of a [datetime]. *)
Definition seconds_of_day (dt : Datetime.datetime) : N :=
  (Datetime.hour dt * 3600 + Datetime.minute dt * 60 + Datetime.second dt)%N.

(** Further worlds. *)
Module Cases.

(** A product whose capacity cell is not a number. *)
Definition unreadable_capacity : World :=
  mkWorld
    [["0"; "c0"; "Yoga"; "Morning class"; "Main St 1"; "two"; "10";
      "2024-05-01"; "10:00:00"; ""]]
    [] Sample.no_random 0.

(** Two products, the second one with a short row and one booking on the
    first. *)
Definition two_rows : World :=
  mkWorld
    [["0"; "c0"; "Yoga"; "Morning class"; "Main St 1"; "2"; "10";
      "2024-05-01"; "10:00:00"; "a@x.com"];
     ["1"; "c1"; "Pilates"; "Evening class"; "Main St 1"; "3"]]
    [Sample.yoga_event] Sample.no_random 0.

(** A product that reuses the id of the sample product. *)
Definition yoga_again : Product :=
  mkProduct "0" "c9" "Yoga II" "Second class" "Main St 2" "5" "10"
    "2024-06-01" "11:00:00" "".

Definition pilates : Product :=
  mkProduct "1" "c1" "Pilates" "Evening class" "Main St 1" "3" "12"
    "2024-05-02" "18:00:00" "".

(** Two products under one id: the first has two free places, the second
    is full. *)
Definition shadowed : World :=
  mkWorld
    [["0"; "c0"; "Yoga"; "Morning class"; "Main St 1"; "2"; "10";
      "2024-05-01"; "10:00:00"; ""];
     ["0"; "c9"; "Yoga II"; "Second class"; "Main St 2"; "1"; "10";
      "2024-06-01"; "11:00:00"; "a@x.com"]]
    [] Sample.no_random 0.

(** A full product whose capacity is written with a decimal point. *)
Definition decimal_capacity : World :=
  mkWorld
    [["0"; "c0"; "Yoga"; "Morning class"; "Main St 1"; "1.0"; "10";
      "2024-05-01"; "10:00:00"; "a@x.com"]]
    [] Sample.no_random 0.

(** A product whose id and price are not the texts a cell hands back. *)
Definition padded_id : Product :=
  mkProduct "007" "c7" "Yoga" "Morning class" "Main St 1" "2" "1.50"
    "2024-05-01" "10:00:00" "".

End Cases.

(** * Properties *)

(** ** Splitting and joining *)

Section strings.

Variable sep : ascii.

Lemma string_app_cons (c : ascii) (s t : string) :
  String c s +:+ t = String c (s +:+ t).
Proof. reflexivity. Qed.

Lemma string_app_nil_r (s : string) : s +:+ "" = s.
Proof.
  induction s as [|c s IH]; [reflexivity|].
  now rewrite string_app_cons, IH.
Qed.

Lemma string_app_assoc (a b c : string) : (a +:+ b) +:+ c = a +:+ b +:+ c.
Proof.
  induction a as [|x a IH]; [reflexivity|].
  now rewrite !string_app_cons, IH.
Qed.

Lemma contains_app (c : ascii) (a b : string) :
  contains c (a +:+ b) = contains c a || contains c b.
Proof.
  induction a as [|x a IH]; [reflexivity|].
  rewrite string_app_cons. cbn [contains]. rewrite IH. now rewrite orb_assoc.
Qed.

(** A field without the separator is read in one piece. *)
Lemma split_from_free (cur x rest : string) :
  sep_free sep x ->
  Py.split_from sep cur (x +:+ rest) = Py.split_from sep (cur +:+ x) rest.
Proof.
  unfold sep_free. revert cur.
  induction x as [|a x IH]; intros cur Hx.
  - now rewrite string_app_nil_r.
  - cbn [contains] in Hx. apply orb_false_elim in Hx as [Ha Hx].
    rewrite string_app_cons. cbn [Py.split_from].
    rewrite Ha, (IH _ Hx), string_app_assoc. reflexivity.
Qed.

Lemma split_from_join (cur x : string) (l : list string) :
  Forall (sep_free sep) (x :: l) ->
  Py.split_from sep cur (Py.join (String sep "") (x :: l)) = (cur +:+ x) :: l.
Proof.
  revert cur x.
  induction l as [|y l IH]; intros cur x Hall.
  - cbn. rewrite <- (string_app_nil_r x) at 1.
    rewrite split_from_free by now inversion Hall. reflexivity.
  - inversion Hall as [|? ? Hx Hl]; subst.
    change (Py.join (String sep "") (x :: y :: l))
      with (x +:+ String sep (Py.join (String sep "") (y :: l))).
    rewrite split_from_free by exact Hx.
    cbn [Py.split_from]. rewrite Ascii.eqb_refl.
    rewrite (IH "" y Hl). reflexivity.
Qed.

(** Every field of a split is free of the separator. *)
Lemma split_from_fields (cur s : string) :
  sep_free sep cur -> Forall (sep_free sep) (Py.split_from sep cur s).
Proof.
  unfold sep_free. revert cur.
  induction s as [|c s IH]; intros cur Hcur; cbn.
  - constructor; [exact Hcur | constructor].
  - destruct (Ascii.eqb c sep) eqn:Hc.
    + constructor; [exact Hcur | now apply IH].
    + apply IH. rewrite contains_app, Hcur. cbn. now rewrite Hc.
Qed.

Lemma split_join (x : string) (l : list string) :
  Forall (sep_free sep) (x :: l) ->
  Py.split sep (Py.join (String sep "") (x :: l)) = x :: l.
Proof. intros Hall. unfold Py.split. now rewrite split_from_join. Qed.

End strings.

(** ** Texts that are no numbers *)

Lemma ascii_eqb_at_lower (c : ascii) :
  Ascii.eqb (Py.lower c) "@" = Ascii.eqb c "@".
Proof. destruct c as [[] [] [] [] [] [] [] []]; reflexivity. Qed.

Lemma contains_at_lower (s : string) :
  contains "@" (Py.lower_str s) = contains "@" s.
Proof.
  induction s as [|c s IH]; [reflexivity|].
  cbn [Py.lower_str contains]. now rewrite ascii_eqb_at_lower, IH.
Qed.

Lemma contains_lstrip (c : ascii) (s : string) :
  Py.is_space c = false -> contains c (Py.lstrip s) = contains c s.
Proof.
  intros Hc. induction s as [|d s IH]; [reflexivity|].
  cbn [Py.lstrip contains].
  destruct (Py.is_space d) eqn:Hd; [|reflexivity].
  rewrite IH. destruct (Ascii.eqb_spec d c) as [->|_]; [congruence | reflexivity].
Qed.

Lemma contains_rstrip (c : ascii) (s : string) :
  Py.is_space c = false -> contains c (Py.rstrip s) = contains c s.
Proof.
  intros Hc. induction s as [|d s IH]; [reflexivity|].
  cbn [Py.rstrip contains].
  destruct (Py.rstrip s) as [|e r] eqn:Hr.
  - cbn [contains] in IH. rewrite <- IH, orb_false_r.
    destruct (Py.is_space d) eqn:Hd; cbn [contains]; [|now rewrite orb_false_r].
    destruct (Ascii.eqb_spec d c) as [->|_]; [congruence | reflexivity].
  - cbn [contains] in *. now rewrite IH.
Qed.

Lemma contains_remove_char (c d : ascii) (s : string) :
  c <> d -> contains c (Py.remove_char d s) = contains c s.
Proof.
  intros Hcd. induction s as [|x s IH]; [reflexivity|].
  cbn [Py.remove_char contains].
  destruct (Ascii.eqb_spec x d) as [->|_].
  - rewrite IH. destruct (Ascii.eqb_spec d c) as [->|_]; [congruence | reflexivity].
  - cbn [contains]. now rewrite IH.
Qed.

Lemma remove_char_absent (c : ascii) (s : string) :
  contains c s = false -> Py.remove_char c s = s.
Proof.
  induction s as [|x s IH]; [reflexivity|].
  cbn [Py.remove_char contains]. intros H.
  apply orb_false_elim in H as [Hx Hs]. now rewrite Hx, (IH Hs).
Qed.

Lemma is_digit_not_at (c : ascii) : Py.is_digit c = true -> Ascii.eqb c "@" = false.
Proof. destruct (Ascii.eqb_spec c "@") as [->|_]; [discriminate | reflexivity]. Qed.

Lemma int_digits_no_at (acc : Z) (b : bool) (s : string) (z : Z) :
  Py.int_digits acc b s = Some z -> contains "@" s = false.
Proof.
  revert acc b. induction s as [|c s IH]; intros acc b; [reflexivity|].
  cbn [Py.int_digits contains].
  destruct (Py.is_digit c) eqn:Hd.
  - intros H. now rewrite (is_digit_not_at c Hd), (IH _ _ H).
  - destruct (Ascii.eqb_spec c "_") as [->|_]; [|discriminate].
    destruct b; [|discriminate]. cbn [andb]. intros H. now rewrite (IH _ _ H).
Qed.

(** The sign of [int] spelled with character tests. *)
Lemma int_unfold (s : string) :
  Py.int s
  = match Py.rstrip (Py.lstrip s) with
    | String c r =>
        if Ascii.eqb c "-" then Z.opp <$> Py.int_digits 0 false r
        else if Ascii.eqb c "+" then Py.int_digits 0 false r
        else Py.int_digits 0 false (String c r)
    | EmptyString => Py.int_digits 0 false EmptyString
    end.
Proof.
  unfold Py.int. destruct (Py.rstrip (Py.lstrip s)) as [|c r]; [reflexivity|].
  destruct c as [[] [] [] [] [] [] [] []]; reflexivity.
Qed.

Lemma int_no_at (s : string) : contains "@" s = true -> Py.int s = None.
Proof.
  intros Hat. rewrite int_unfold.
  assert (Hu : contains "@" (Py.rstrip (Py.lstrip s)) = true)
    by now rewrite contains_rstrip, contains_lstrip.
  destruct (Py.rstrip (Py.lstrip s)) as [|c r]; [discriminate|].
  destruct (Ascii.eqb_spec c "-") as [->|_].
  { destruct (Py.int_digits 0 false r) as [z|] eqn:Hz; [|reflexivity].
    apply int_digits_no_at in Hz. cbn in Hu. congruence. }
  destruct (Ascii.eqb_spec c "+") as [->|_].
  { destruct (Py.int_digits 0 false r) as [z|] eqn:Hz; [|reflexivity].
    apply int_digits_no_at in Hz. cbn in Hu. congruence. }
  destruct (Py.int_digits 0 false (String c r)) as [z|] eqn:Hz; [|reflexivity].
  apply int_digits_no_at in Hz. congruence.
Qed.

Lemma span_digits_spec (s : string) :
  s = fst (Py.span_digits s) +:+ snd (Py.span_digits s)
  /\ contains "@" (fst (Py.span_digits s)) = false.
Proof.
  induction s as [|c s [IHs IHc]]; [now split|].
  cbn [Py.span_digits]. destruct (Py.is_digit c) eqn:Hd; [|now split].
  destruct (Py.span_digits s) as [d r]. cbn [fst snd] in *.
  split.
  - rewrite string_app_cons. now f_equal.
  - cbn [contains]. now rewrite (is_digit_not_at c Hd), IHc.
Qed.

Lemma drop_underscores_at (prev : ascii) (s t : string) :
  Py.drop_underscores prev s = Some t -> contains "@" t = contains "@" s.
Proof.
  revert prev t. induction s as [|c s IH]; intros prev t; cbn [Py.drop_underscores].
  - destruct (Ascii.eqb prev "_"); [discriminate|]. now intros [= <-].
  - destruct (Ascii.eqb_spec c "_") as [->|_].
    + destruct (Py.is_digit prev); [|discriminate]. intros H.
      cbn [contains]. now rewrite (IH _ _ H).
    + destruct (Ascii.eqb prev "_" && negb (Py.is_digit c)); [discriminate|].
      destruct (Py.drop_underscores c s) as [u|] eqn:Hu; [|discriminate].
      intros [= <-]. cbn [contains]. now rewrite (IH _ _ Hu).
Qed.

Lemma split_sign_at (s : string) :
  contains "@" (snd (Py.split_sign s)) = contains "@" s.
Proof.
  destruct s as [|c r]; [reflexivity|]. cbn [Py.split_sign].
  destruct (Ascii.eqb_spec c "-") as [->|_]; [reflexivity|].
  destruct (Ascii.eqb_spec c "+") as [->|_]; reflexivity.
Qed.

Lemma parse_decimal_no_at (s : string) (res : Z * Z) :
  Py.parse_decimal s = Some res -> contains "@" s = false.
Proof.
  unfold Py.parse_decimal.
  destruct (span_digits_spec s) as [Hs Hip].
  destruct (Py.span_digits s) as [ip r1]. cbn [fst snd] in *.
  assert (Hfrac : exists fp r2,
             (match r1 with
              | String "." r => Py.span_digits r
              | _ => (EmptyString, r1)
              end) = (fp, r2)
             /\ contains "@" r1 = contains "@" r2).
  { destruct r1 as [|c r]; [exists "", ""; now split|].
    destruct (Ascii.eqb_spec c ".") as [->|Hne].
    - destruct (span_digits_spec r) as [Hr Hfp].
      destruct (Py.span_digits r) as [fp r2]. cbn [fst snd] in *.
      exists fp, r2. split; [reflexivity|].
      cbn [contains]. rewrite Hr at 1. now rewrite contains_app, Hfp.
    - exists "", (String c r). split; [|reflexivity].
      destruct c as [[] [] [] [] [] [] [] []]; try reflexivity. congruence. }
  destruct Hfrac as (fp & r2 & -> & Hr1).
  destruct (String.eqb (ip +:+ fp) ""); [discriminate|].
  assert (Hr2 : contains "@" r2 = false -> contains "@" s = false).
  { intros H. rewrite Hs, contains_app, Hip, Hr1. exact H. }
  destruct r2 as [|c r3]; [intros _; now apply Hr2|].
  destruct (Ascii.eqb_spec (Py.lower c) "e") as [Hc|_]; [|discriminate].
  pose proof (split_sign_at r3) as Hsign.
  destruct (Py.split_sign r3) as [eneg r4]. cbn [snd] in Hsign.
  destruct (span_digits_spec r4) as [Hr4 Hed].
  destruct (Py.span_digits r4) as [ed r5]. cbn [fst snd] in *.
  destruct (String.eqb ed ""); [discriminate|]. cbn [orb].
  destruct (String.eqb_spec r5 "") as [->|_]; [|discriminate].
  intros _. apply Hr2. cbn [contains].
  rewrite <- Hsign, Hr4, contains_app, Hed. cbn [contains orb].
  rewrite <- ascii_eqb_at_lower, Hc. reflexivity.
Qed.

Lemma parse_float_no_at (s : string) (f : Py.float) :
  Py.parse_float s = Some f -> contains "@" s = false.
Proof.
  unfold Py.parse_float. pose proof (split_sign_at s) as Hsign.
  destruct (Py.split_sign s) as [neg r]. cbn [snd] in Hsign. rewrite <- Hsign.
  destruct (Py.parse_decimal r) as [[d q]|] eqn:Hdec.
  { intros _. now apply parse_decimal_no_at in Hdec. }
  rewrite <- contains_at_lower.
  destruct (String.eqb_spec (Py.lower_str r) "inf") as [->|_]; [reflexivity|].
  destruct (String.eqb_spec (Py.lower_str r) "infinity") as [->|_]; [reflexivity|].
  cbn [orb].
  destruct (String.eqb_spec (Py.lower_str r) "nan") as [->|_]; [reflexivity|].
  discriminate.
Qed.

Lemma float_no_at (s : string) : contains "@" s = true -> Py.float_of_str s = None.
Proof.
  intros Hat. unfold Py.float_of_str.
  destruct (Py.drop_underscores _ _) as [t|] eqn:Ht; [|reflexivity].
  apply drop_underscores_at in Ht.
  rewrite contains_rstrip, contains_lstrip, Hat in Ht by reflexivity.
  destruct (Py.parse_float t) as [f|] eqn:Hf; [|reflexivity].
  apply parse_float_no_at in Hf. congruence.
Qed.

(** A cell whose text holds an [@] is handed back as it is. *)
Lemma read_text_at (s : string) : contains "@" s = true -> read_text s = s.
Proof.
  intros Hat. unfold read_text, numericise.
  destruct (contains "_" s); [reflexivity|].
  assert (Hclean : contains "@" (Py.remove_char "," s) = true)
    by now rewrite contains_remove_char.
  now rewrite (int_no_at _ Hclean), (float_no_at _ Hclean).
Qed.

(** ** The text of a number *)

Lemma of_lu_nat_N (d : Decimal.uint) :
  N.of_nat (DecimalNat.Unsigned.of_lu d) = DecimalPos.Unsigned.of_lu d.
Proof.
  induction d; cbn [DecimalNat.Unsigned.of_lu DecimalPos.Unsigned.of_lu];
    rewrite <- ?IHd; lia.
Qed.

Lemma of_uint_nat_N (d : Decimal.uint) : N.of_nat (Nat.of_uint d) = N.of_uint d.
Proof.
  unfold N.of_uint.
  now rewrite DecimalNat.Unsigned.of_uint_alt, DecimalPos.Unsigned.of_uint_alt,
    of_lu_nat_N.
Qed.

(** The decimal numeral of a count is the same computed in binary. *)
Lemma to_uint_nat_N (n : nat) : N.to_uint (N.of_nat n) = Nat.to_uint n.
Proof.
  rewrite <- (DecimalNat.Unsigned.of_to n) at 1.
  rewrite of_uint_nat_N, DecimalN.Unsigned.to_of.
  rewrite <- DecimalNat.Unsigned.to_of.
  now rewrite DecimalNat.Unsigned.of_to.
Qed.

Lemma str_int_of_nat (n : nat) : Py.str_int (Z.of_nat n) = Py.str_nat n.
Proof.
  unfold Py.str_nat. rewrite <- to_uint_nat_N.
  now destruct n.
Qed.

Section digit_texts.

Variable c : ascii.
Hypothesis Hc : Py.is_digit c = false.

Lemma uint_text_free (d : Decimal.uint) :
  contains c (NilEmpty.string_of_uint d) = false.
Proof.
  induction d; [reflexivity | ..]; cbn [NilEmpty.string_of_uint contains];
    rewrite IHd, orb_false_r;
    match goal with
    | |- Ascii.eqb ?x c = false =>
        destruct (Ascii.eqb_spec x c) as [<-|_]; [discriminate Hc | reflexivity]
    end.
Qed.

Lemma str_N_free (n : N) : contains c (Py.str_N n) = false.
Proof.
  unfold Py.str_N, NilZero.string_of_uint.
  destruct (N.to_uint n) eqn:Hn; try (rewrite <- Hn; apply uint_text_free).
  cbn [contains]. rewrite orb_false_r.
  destruct (Ascii.eqb_spec "0" c) as [<-|_]; [discriminate Hc | reflexivity].
Qed.

Lemma str_nat_free (n : nat) : contains c (Py.str_nat n) = false.
Proof.
  unfold Py.str_nat. rewrite <- to_uint_nat_N. apply str_N_free.
Qed.

Lemma zeros_free (n : nat) : contains c (Py.zeros n) = false.
Proof.
  induction n as [|n IH]; [reflexivity|]. cbn [Py.zeros contains].
  rewrite IH, orb_false_r.
  destruct (Ascii.eqb_spec "0" c) as [<-|_]; [discriminate Hc | reflexivity].
Qed.

Lemma take_str_free (n : nat) (s : string) :
  contains c s = false -> contains c (Py.take_str n s) = false.
Proof.
  revert s. induction n as [|n IH]; intros [|x s]; try reflexivity.
  cbn [Py.take_str contains]. intros H.
  apply orb_false_elim in H as [Hx Hs]. now rewrite Hx, (IH s Hs).
Qed.

Lemma drop_str_free (n : nat) (s : string) :
  contains c s = false -> contains c (Py.drop_str n s) = false.
Proof.
  revert s. induction n as [|n IH]; intros [|x s]; try easy.
  cbn [Py.drop_str contains]. intros H.
  apply orb_false_elim in H as [_ Hs]. now apply IH.
Qed.

End digit_texts.

(** The text of a number holds no comma. *)
Lemma str_int_no_comma (z : Z) : contains "," (Py.str_int z) = false.
Proof.
  destruct z as [|p|p]; cbn [Py.str_int];
    [now apply str_N_free | now apply str_N_free |].
  rewrite contains_app. now rewrite str_N_free.
Qed.

Lemma str_exponent_no_comma (x : Z) : contains "," (Py.str_exponent x) = false.
Proof.
  unfold Py.str_exponent.
  rewrite contains_app.
  destruct (x <? 0)%Z; cbn [contains orb Ascii.eqb Bool.eqb];
    (destruct (Z.abs_N x <? 10)%N;
     [rewrite string_app_cons; cbn [contains orb String.append]|];
     now apply str_N_free).
Qed.

Lemma format_repr_no_comma (ds : string) (decpt : Z) :
  contains "," ds = false -> contains "," (Py.format_repr ds decpt) = false.
Proof.
  intros Hds. unfold Py.format_repr.
  destruct ((decpt <=? -4)%Z || (16 <? decpt)%Z).
  - destruct ds as [|c rest]; [reflexivity|].
    cbn [contains] in Hds. apply orb_false_elim in Hds as [Hc Hrest].
    rewrite string_app_cons. cbn [contains]. rewrite Hc. cbn [orb].
    rewrite !contains_app, str_exponent_no_comma.
    destruct rest as [|d rest]; [reflexivity|].
    now rewrite contains_app, Hrest.
  - destruct (decpt <=? 0)%Z.
    + rewrite !contains_app, Hds, zeros_free by reflexivity. reflexivity.
    + destruct (Z.of_nat (String.length ds) <=? decpt)%Z.
      * rewrite !contains_app, Hds, zeros_free by reflexivity. reflexivity.
      * rewrite !contains_app, take_str_free, drop_str_free by assumption.
        reflexivity.
Qed.

Lemma str_float_no_comma (f : Py.float) : contains "," (Py.str_float f) = false.
Proof.
  destruct f as [neg m e|neg|]; [|now destruct neg|reflexivity].
  cbn [Py.str_float]. rewrite contains_app.
  replace (contains "," (if neg then "-" else "")) with false by now destruct neg.
  cbn [orb]. destruct m as [|p]; [reflexivity|].
  destruct (Py.shortest _ _ _ _ _) as [c j].
  destruct (Py.strip_zeros _ _ _) as [c' j'].
  apply format_repr_no_comma. now apply str_N_free.
Qed.

(** A cell is handed back as it was written or as a text without comma. *)
Lemma read_text_cases (s : string) :
  read_text s = s \/ contains "," (read_text s) = false.
Proof.
  unfold read_text, numericise.
  destruct (contains "_" s); [now left|].
  destruct (Py.int _) as [z|]; [right; apply str_int_no_comma|].
  destruct (Py.float_of_str _) as [f|]; [right; apply str_float_no_comma|].
  now left.
Qed.
(** ** The worksheet as a list of product rows *)

Lemma product_of_record_cells (cells : list string) :
  product_of_record (to_record cells) = inr (product_of_cells cells).
Proof.
  do 10 (destruct cells as [|? cells]; [reflexivity|]).
  reflexivity.
Qed.

Lemma enumerate_rows_cells (i : nat) (sheet : list (list string)) :
  enumerate_rows i (to_record <$> sheet)
  = inr (imap (fun j cells => mkProductRow (i + j + 2) (product_of_cells cells)) sheet).
Proof.
  revert i; induction sheet as [|cells sheet IH]; intros i; [reflexivity|].
  cbn [fmap list_fmap enumerate_rows].
  rewrite product_of_record_cells, IH.
  unfold mbind, E_bind, mret, E_ret. cbn [imap].
  do 2 f_equal.
  - f_equal; lia.
  - apply imap_ext; intros j x _; cbn. f_equal; lia.
Qed.

Lemma list_products_rows (w : World) :
  list_products w = (inr (rows_of (products_sheet w)), w).
Proof.
  unfold list_products, mbind, M_bind, bind, get_all_records.
  rewrite enumerate_rows_cells. reflexivity.
Qed.

Lemma scan_rows_find (product_id : string) (rows : list ProductRow) (w : World) :
  scan_rows product_id rows w
  = (match first_with_id product_id rows with
     | Some (_, r) => inr r
     | None => inl (ProductNotFoundException "product not found")
     end, w).
Proof.
  unfold first_with_id.
  induction rows as [|r rows IH]; [reflexivity|].
  cbn [scan_rows list_find].
  destruct (String.eqb_spec (id (product r)) product_id) as [Heq|Hne].
  - rewrite decide_True by exact Heq. reflexivity.
  - rewrite decide_False by exact Hne. rewrite IH.
    destruct (list_find _ rows) as [[j q]|]; reflexivity.
Qed.

Lemma get_product_row_find (product_id : string) (w : World) :
  get_product_row product_id w
  = (match first_with_id product_id (rows_of (products_sheet w)) with
     | Some (_, r) => inr r
     | None => inl (ProductNotFoundException "product not found")
     end, w).
Proof.
  unfold get_product_row, mbind, M_bind, bind.
  rewrite list_products_rows. apply scan_rows_find.
Qed.

(** The row [get_product_row] returns, located in the worksheet. *)
Lemma get_product_row_inv (product_id : string) (w : World) (row : ProductRow) :
  outcome (get_product_row product_id w) = inr row ->
  exists i cells,
    products_sheet w !! i = Some cells
    /\ row = mkProductRow (i + 2) (product_of_cells cells)
    /\ id (product_of_cells cells) = product_id
    /\ first_with_id product_id (rows_of (products_sheet w)) = Some (i, row).
Proof.
  rewrite get_product_row_find. unfold outcome; cbn [fst].
  destruct (first_with_id _ _) as [[i r]|] eqn:Hfind; [|discriminate].
  intros [= ->].
  pose proof Hfind as Hf.
  apply list_find_Some in Hf as (Hi & Hid & _).
  unfold rows_of in Hi. apply list_lookup_imap_Some in Hi as (cells & Hc & ->).
  exists i, cells. auto.
Qed.

Lemma get_product_row_world (product_id : string) (w : World) :
  world_after (get_product_row product_id w) = w.
Proof. rewrite get_product_row_find. reflexivity. Qed.

(** ** Lookup of a product row *)

(** C3: [get_product_row] scans the rows of [list_products] in order.  When
    no row has the id, it raises [ProductNotFoundException]; when some row
    has it, it returns the first such row, which is a row of
    [list_products] whose product has that id.  The world is left as it
    was. *)
Theorem get_product_row_linear_scan (w : World) (product_id : string) :
  let rows := rows_of (products_sheet w) in
  list_products w = (inr rows, w)
  /\ ((forall r, r ∈ rows -> id (product r) <> product_id) ->
      get_product_row product_id w
      = (inl (ProductNotFoundException "product not found"), w))
  /\ ((exists r, r ∈ rows /\ id (product r) = product_id) ->
      exists i r,
        rows !! i = Some r
        /\ id (product r) = product_id
        /\ (forall j q, j < i -> rows !! j = Some q -> id (product q) <> product_id)
        /\ get_product_row product_id w = (inr r, w)).
Proof.
  intros rows. split; [apply list_products_rows|].
  rewrite get_product_row_find. fold rows. unfold first_with_id.
  split.
  - intros Hnone.
    destruct (list_find _ rows) as [[i r]|] eqn:Hfind; [|reflexivity].
    apply list_find_Some in Hfind as (Hi & Hid & _).
    exfalso. apply (Hnone r); [|exact Hid].
    apply list_elem_of_lookup. eauto.
  - intros (r & Hin & Hid).
    destruct (list_find _ rows) as [[i q]|] eqn:Hfind.
    + apply list_find_Some in Hfind as (Hi & Hq & Hbefore).
      exists i, q. repeat split; try assumption.
      intros j x Hlt Hx. exact (Hbefore j x Hx Hlt).
    + exfalso. apply list_find_None in Hfind.
      rewrite Forall_forall in Hfind. exact (Hfind r Hin Hid).
Qed.

Lemma get_product_row_linear_scan_witness :
  get_product_row "7" Sample.studio
  = (inl (ProductNotFoundException "product not found"), Sample.studio)
  /\ exists i r,
       rows_of (products_sheet Sample.studio) !! i = Some r
       /\ id (product r) = "0"
       /\ (forall j q, j < i ->
             rows_of (products_sheet Sample.studio) !! j = Some q ->
             id (product q) <> "0")
       /\ get_product_row "0" Sample.studio = (inr r, Sample.studio).
Proof.
  split.
  - apply (get_product_row_linear_scan Sample.studio "7").
    intros r Hr. apply list_elem_of_singleton in Hr. subst r. discriminate.
  - apply (get_product_row_linear_scan Sample.studio "0").
    exists (mkProductRow 2 Sample.yoga). split; [|reflexivity].
    apply list_elem_of_singleton. reflexivity.
Defined.

Lemma stored_emails_fields (cell : string) :
  Forall (fun e => contains "," e = false) (stored_emails cell).
Proof.
  unfold stored_emails. destruct (String.eqb cell ""); [constructor|].
  now apply split_from_fields.
Qed.

(** The two branches of [emails_to_store] agree: joining one email gives
    that email. *)
Lemma emails_to_store_join (booked : list string) (email : string) :
  (if length (booked ++ [email]) =? 1 then email
   else Py.join "," (booked ++ [email]))
  = Py.join "," (booked ++ [email]).
Proof.
  destruct booked as [|b booked]; [reflexivity|].
  cbn [length app]. rewrite length_app. cbn [length].
  replace (S (length booked + 1) =? 1) with false; [reflexivity|].
  symmetry. apply Nat.eqb_neq. lia.
Qed.

Lemma join_snoc_nonempty (booked : list string) (email : string) :
  email <> "" -> Py.join "," (booked ++ [email]) <> "".
Proof.
  intros He. destruct booked as [|b booked]; [exact He|].
  cbn [app]. destruct (booked ++ [email]) as [|y l] eqn:Hl.
  - now destruct booked.
  - cbn. destruct b; discriminate.
Qed.

(** Reading back the cell written for a list of well-formed emails. *)
Lemma stored_emails_join (booked : list string) (email : string) :
  Forall (fun e => contains "," e = false) booked ->
  contains "," email = false ->
  email <> "" ->
  stored_emails (Py.join "," (booked ++ [email])) = booked ++ [email].
Proof.
  intros Hb He Hne. unfold stored_emails.
  destruct (String.eqb_spec (Py.join "," (booked ++ [email])) "") as [Heq|_].
  - now apply join_snoc_nonempty in Heq.
  - assert (Hall : Forall (fun e => contains "," e = false) (booked ++ [email])).
    { apply Forall_app; split; [exact Hb|]. constructor; [exact He | constructor]. }
    destruct (booked ++ [email]) as [|x l] eqn:Hl; [now destruct booked|].
    now apply (split_join ",").
Qed.

(** ** Joining what was split *)

Lemma split_from_nonempty (sep : ascii) (cur s : string) :
  Py.split_from sep cur s <> [].
Proof.
  revert cur. induction s as [|c s IH]; intros cur; cbn; [discriminate|].
  destruct (Ascii.eqb c sep); [discriminate | apply IH].
Qed.

Lemma join_cons (sep x : string) (l : list string) :
  l <> [] -> Py.join sep (x :: l) = x +:+ sep +:+ Py.join sep l.
Proof. now destruct l. Qed.

Lemma join_split_from (sep : ascii) (cur s : string) :
  Py.join (String sep "") (Py.split_from sep cur s) = cur +:+ s.
Proof.
  revert cur. induction s as [|c s IH]; intros cur; cbn [Py.split_from].
  - now rewrite string_app_nil_r.
  - destruct (Ascii.eqb_spec c sep) as [->|Hne].
    + rewrite join_cons by apply split_from_nonempty.
      rewrite IH. reflexivity.
    + rewrite IH, string_app_assoc. reflexivity.
Qed.

Lemma join_snoc (sep : string) (l : list string) (e : string) :
  l <> [] -> Py.join sep (l ++ [e]) = Py.join sep l +:+ sep +:+ e.
Proof.
  induction l as [|x l IH]; [congruence|]. intros _.
  destruct l as [|y l]; [reflexivity|].
  cbn [app]. rewrite join_cons by discriminate.
  cbn [app] in IH. rewrite IH by discriminate.
  rewrite (join_cons sep x (y :: l)) by discriminate.
  now rewrite !string_app_assoc.
Qed.

(** The cell a booking writes, in terms of the cell it found. *)
Lemma booking_cell_appended (p : Product) (email : string) :
  booking_cell p email
  = if String.eqb (emails p) "" then email else emails p +:+ "," +:+ email.
Proof.
  unfold booking_cell, stored_emails.
  destruct (String.eqb (emails p) ""); [reflexivity|].
  rewrite join_snoc by apply split_from_nonempty.
  unfold Py.split. now rewrite (join_split_from "," "").
Qed.

Lemma booking_cell_at (p : Product) (email : string) :
  contains "@" email = true -> contains "@" (booking_cell p email) = true.
Proof.
  intros Hat. rewrite booking_cell_appended.
  destruct (String.eqb (emails p) ""); [exact Hat|].
  rewrite !contains_app, Hat. now rewrite !orb_true_r.
Qed.

(** ** Writing the emails cell *)

Lemma product_of_cells_write (v : string) (cells : list string) :
  product_of_cells (write_emails v cells)
  = set_emails (read_text v) (product_of_cells cells).
Proof.
  do 10 (destruct cells as [|? cells]; [reflexivity|]).
  reflexivity.
Qed.

Lemma update_cell_emails (i : nat) (v : string) (cells : list string) (w : World) :
  products_sheet w !! i = Some cells ->
  update_cell (i + 2) 10 v w
  = (inr tt,
     mkWorld (alter (write_emails v) i (products_sheet w)) (calendar w)
       (urandom w) (urandom_pos w)).
Proof.
  intros Hi. unfold update_cell.
  replace (i + 2 <? 2) with false by (symmetry; apply Nat.ltb_ge; lia).
  cbn [orb Nat.ltb Nat.leb].
  replace (i + 2 - 2) with i by lia.
  apply lookup_lt_Some in Hi.
  replace (S i - length (products_sheet w)) with 0 by lia.
  cbn [replicate]. rewrite app_nil_r. reflexivity.
Qed.

Lemma rows_of_write (i : nat) (v : string) (sheet : list (list string)) :
  rows_of (alter (write_emails v) i sheet)
  = alter (fun r => mkProductRow (row_num r) (set_emails (read_text v) (product r))) i
      (rows_of sheet).
Proof.
  apply list_eq; intros j. unfold rows_of.
  rewrite list_lookup_imap.
  destruct (decide (i = j)) as [->|Hne].
  - rewrite !list_lookup_alter_eq, list_lookup_imap.
    destruct (sheet !! j) as [cells|]; [|reflexivity].
    cbn. now rewrite product_of_cells_write.
  - rewrite !list_lookup_alter_ne by exact Hne.
    now rewrite list_lookup_imap.
Qed.

(** Changing a row without changing its id does not move the first match. *)
Lemma first_with_id_alter (product_id : string) (rows : list ProductRow)
    (f : ProductRow -> ProductRow) (i : nat) (r : ProductRow) :
  (forall x, id (product (f x)) = id (product x)) ->
  first_with_id product_id rows = Some (i, r) ->
  first_with_id product_id (alter f i rows) = Some (i, f r).
Proof.
  unfold first_with_id. intros Hid Hfind.
  apply list_find_Some in Hfind as (Hi & Hp & Hbefore).
  apply list_find_Some. split; [|split].
  - now rewrite list_lookup_alter_eq, Hi.
  - now rewrite Hid.
  - intros j y Hj Hlt.
    rewrite list_lookup_alter_ne in Hj by lia.
    exact (Hbefore j y Hj Hlt).
Qed.

(** ** The runs of [add_booking] *)

Lemma add_booking_cases (product_id email : string) (w : World) :
  match first_with_id product_id (rows_of (products_sheet w)) with
  | None =>
      add_booking product_id email w
      = (inl (ProductNotFoundException "product not found"), w)
  | Some (i, row) =>
      match Py.int (capacity (product row)) with
      | None => add_booking product_id email w = (inl ValueError, w)
      | Some c =>
          if (Z.of_nat (email_count (product row)) >? c - 1)%Z
          then add_booking product_id email w
               = (inl (CapacityReachedException "capacity reached"), w)
          else add_booking product_id email w
               = (inr tt, booked w i (product row) email)
      end
  end.
Proof.
  unfold add_booking, mbind, M_bind, bind.
  rewrite get_product_row_find.
  destruct (first_with_id _ _) as [[i row]|] eqn:Hfind; [|reflexivity].
  destruct (Py.int (capacity (product row))) as [c|]; [|reflexivity].
  cbn [or_raise mret M_ret ret]. unfold email_count.
  destruct (Z.of_nat _ >? c - 1)%Z; [reflexivity|].
  rewrite emails_to_store_join.
  apply list_find_Some in Hfind as (Hi & _ & _).
  unfold rows_of in Hi. apply list_lookup_imap_Some in Hi as (cells & Hc & ->).
  cbn [row_num product].
  rewrite (update_cell_emails i _ cells w Hc).
  reflexivity.
Qed.

Lemma get_product_row_first (product_id : string) (w : World) (row : ProductRow) :
  get_product_row product_id w = (inr row, w) ->
  exists i, first_with_id product_id (rows_of (products_sheet w)) = Some (i, row).
Proof.
  intros Hget.
  destruct (get_product_row_inv product_id w row) as (i & cells & _ & _ & _ & Hf).
  { now rewrite Hget. }
  eauto.
Qed.

(** A booking on a row with a free place goes through, and the lookup then
    returns the same row with the new emails cell. *)
Lemma add_booking_step (product_id email : string) (w : World)
    (row : ProductRow) (c : Z) :
  get_product_row product_id w = (inr row, w) ->
  Py.int (capacity (product row)) = Some c ->
  (Z.of_nat (email_count (product row)) < c)%Z ->
  exists w',
    add_booking product_id email w = (inr tt, w')
    /\ get_product_row product_id w' = (inr (booked_row row email), w').
Proof.
  intros Hget Hint Hfree.
  destruct (get_product_row_first _ _ _ Hget) as [i Hfind].
  pose proof (add_booking_cases product_id email w) as Hrun.
  rewrite Hfind, Hint in Hrun.
  replace (Z.of_nat (email_count (product row)) >? c - 1)%Z with false in Hrun
    by (symmetry; rewrite Z.gtb_ltb; apply Z.ltb_ge; lia).
  exists (booked w i (product row) email). split; [exact Hrun|].
  rewrite get_product_row_find. cbn [booked products_sheet].
  rewrite rows_of_write.
  erewrite first_with_id_alter; [reflexivity | reflexivity | exact Hfind].
Qed.

Lemma add_booking_full (product_id email : string) (w : World)
    (row : ProductRow) (c : Z) :
  get_product_row product_id w = (inr row, w) ->
  Py.int (capacity (product row)) = Some c ->
  (c <= Z.of_nat (email_count (product row)))%Z ->
  add_booking product_id email w
  = (inl (CapacityReachedException "capacity reached"), w).
Proof.
  intros Hget Hint Hfull.
  destruct (get_product_row_first _ _ _ Hget) as [i Hfind].
  pose proof (add_booking_cases product_id email w) as Hrun.
  rewrite Hfind, Hint in Hrun.
  replace (Z.of_nat (email_count (product row)) >? c - 1)%Z with true in Hrun
    by (symmetry; rewrite Z.gtb_ltb; apply Z.ltb_lt; lia).
  exact Hrun.
Qed.

(** The emails of a row after an email with an [@] and no comma is booked
    on it. *)
Lemma stored_emails_booked (row : ProductRow) (email : string) :
  contains "@" email = true ->
  contains "," email = false ->
  stored_emails (emails (product (booked_row row email)))
  = stored_emails (emails (product row)) ++ [email].
Proof.
  intros Hat Hcomma. cbn [booked_row product set_emails emails].
  rewrite (read_text_at _ (booking_cell_at _ _ Hat)). unfold booking_cell.
  apply stored_emails_join; [apply stored_emails_fields | exact Hcomma |].
  intros ->. discriminate Hat.
Qed.

(** ** The capacity check *)

(** C1, as the code has it: on a worksheet of ASCII cells in rows no wider
    than the header, for the product row that [get_product_row] returns
    for the id, which is the first row with that id, and whose capacity
    [int] reads as [c], [add_booking] raises [CapacityReachedException]
    exactly when the stored emails (none for the empty cell) number at
    least [c]. *)
Theorem add_booking_capacity_reached_iff (product_id email : string)
    (w : World) (row : ProductRow) (c : Z) :
  modelled_sheet w = true ->
  get_product_row product_id w = (inr row, w) ->
  Py.int (capacity (product row)) = Some c ->
  raises_CapacityReached (add_booking product_id email w)
  <-> (c <= Z.of_nat (length (stored_emails (emails (product row)))))%Z.
Proof.
  intros _ Hget Hint. fold (email_count (product row)).
  destruct (Z_le_gt_dec c (Z.of_nat (email_count (product row)))) as [Hfull|Hfree].
  - split; [intros _; exact Hfull|]. intros _.
    rewrite (add_booking_full _ email _ _ _ Hget Hint Hfull).
    now exists "capacity reached".
  - destruct (add_booking_step product_id email w row c Hget Hint) as (w' & Hrun & _);
      [lia|].
    split; [|lia]. intros [msg Hmsg]. rewrite Hrun in Hmsg. discriminate.
Qed.

Lemma add_booking_capacity_reached_iff_witness :
  raises_CapacityReached (add_booking "0" "a@x.com" Sample.studio)
  <-> (2 <= Z.of_nat (length (stored_emails "")))%Z.
Proof.
  apply (add_booking_capacity_reached_iff "0" "a@x.com" Sample.studio
           (mkProductRow 2 Sample.yoga) 2); reflexivity.
Defined.

(** C1 as stated fails.  In a worksheet with two rows under the id ['0'],
    the second row is full (one email, capacity 1), yet [add_booking] on
    its id books on the first row and returns.  And a full row whose
    capacity is written ['1.0'] makes [add_booking] raise [ValueError], not
    [CapacityReachedException]. *)
Lemma add_booking_shadowed_row_counterexample :
  (exists first second,
     outcome (list_products Cases.shadowed) = inr [first; second]
     /\ id (product second) = "0"
     /\ Py.int (capacity (product second)) = Some 1%Z
     /\ stored_emails (emails (product second)) = ["a@x.com"]
     /\ outcome (add_booking "0" "b@x.com" Cases.shadowed) = inr tt)
  /\ (exists row,
        outcome (list_products Cases.decimal_capacity) = inr [row]
        /\ capacity (product row) = "1.0"
        /\ stored_emails (emails (product row)) = ["a@x.com"]
        /\ outcome (add_booking "0" "b@x.com" Cases.decimal_capacity)
           = inl ValueError).
Proof.
  split.
  - eexists _, _. vm_compute. repeat split.
  - eexists. vm_compute. repeat split.
Qed.

(** C10: when [add_booking] raises [ProductNotFoundException] or
    [CapacityReachedException], the world it leaves is the world it was
    given: no cell of the worksheet and no event of the calendar changed. *)
Theorem add_booking_error_unchanged (product_id email : string)
    (w w' : World) (e : exn) :
  add_booking product_id email w = (inl e, w') ->
  (exists msg, e = ProductNotFoundException msg)
  \/ (exists msg, e = CapacityReachedException msg) ->
  w' = w
  /\ products_sheet w' = products_sheet w
  /\ calendar w' = calendar w.
Proof.
  intros Hrun _.
  enough (w' = w) as -> by auto.
  pose proof (add_booking_cases product_id email w) as Hcases.
  destruct (first_with_id _ _) as [[i row]|].
  - destruct (Py.int _) as [c|].
    + destruct (Z.of_nat _ >? c - 1)%Z; congruence.
    + congruence.
  - congruence.
Qed.

Lemma add_booking_error_unchanged_witness :
  let r := add_booking "7" "a@x.com" Sample.studio in
  raises_ProductNotFound r
  /\ world_after r = Sample.studio
  /\ products_sheet (world_after r) = products_sheet Sample.studio
  /\ calendar (world_after r) = calendar Sample.studio.
Proof.
  split; [now exists "product not found"|].
  apply (add_booking_error_unchanged "7" "a@x.com" Sample.studio _
           (ProductNotFoundException "product not found")).
  - reflexivity.
  - left. now exists "product not found".
Defined.

(** ** One booking *)

(** C2, as the code has it: on a worksheet of ASCII cells in rows no wider
    than the header, for the product row the id resolves to, whose
    capacity [int] reads as [c], with fewer stored emails than [c], and for
    an email that holds an [@] and no comma, [add_booking] succeeds, the
    row then stores the old emails followed by the new one, so exactly one
    more, and the new count does not exceed the capacity. *)
Theorem add_booking_adds_one_email (product_id email : string) (w : World)
    (row : ProductRow) (c : Z) :
  modelled_sheet w = true ->
  get_product_row product_id w = (inr row, w) ->
  Py.int (capacity (product row)) = Some c ->
  (Z.of_nat (email_count (product row)) < c)%Z ->
  contains "@" email = true ->
  contains "," email = false ->
  exists w' row',
    add_booking product_id email w = (inr tt, w')
    /\ get_product_row product_id w' = (inr row', w')
    /\ row_num row' = row_num row
    /\ capacity (product row') = capacity (product row)
    /\ stored_emails (emails (product row'))
       = stored_emails (emails (product row)) ++ [email]
    /\ email_count (product row') = S (email_count (product row))
    /\ (Z.of_nat (email_count (product row')) <= c)%Z.
Proof.
  intros _ Hget Hint Hfree Hat Hcomma.
  destruct (add_booking_step product_id email w row c Hget Hint Hfree)
    as (w' & Hrun & Hget').
  exists w', (booked_row row email).
  assert (Hcount : email_count (product (booked_row row email))
                   = S (email_count (product row))).
  { unfold email_count.
    rewrite stored_emails_booked by assumption.
    rewrite length_app; cbn [length]; lia. }
  repeat split; try assumption; try reflexivity.
  - now apply stored_emails_booked.
  - lia.
Qed.

Lemma add_booking_adds_one_email_witness :
  exists w' row',
    add_booking "0" "a@x.com" Sample.studio = (inr tt, w')
    /\ get_product_row "0" w' = (inr row', w')
    /\ row_num row' = 2
    /\ capacity (product row') = "2"
    /\ stored_emails (emails (product row')) = [] ++ ["a@x.com"]
    /\ email_count (product row') = 1
    /\ (Z.of_nat (email_count (product row')) <= 2)%Z.
Proof.
  apply (add_booking_adds_one_email "0" "a@x.com" Sample.studio
           (mkProductRow 2 Sample.yoga) 2);
    [reflexivity | reflexivity | reflexivity | vm_compute; reflexivity
    | reflexivity | reflexivity].
Defined.

(** C2 as stated fails: on a product with one place and no email, a booking
    whose email text holds a comma succeeds and leaves two stored emails,
    more than the capacity; a booking of the empty email succeeds and
    leaves none.  On a product with two places, booking ['7'] and then
    ['8'] leaves the cell ['7,8'], which is handed back as the number 78:
    the second booking succeeds and the row still stores one email. *)
Lemma add_booking_count_counterexample :
  emails_stored "0" Sample.solo = Some 0
  /\ Py.int "1" = Some 1%Z
  /\ (let r := add_booking "0" "a@x.com,b@x.com" Sample.solo in
      outcome r = inr tt
      /\ emails_cell "0" (world_after r) = Some "a@x.com,b@x.com"
      /\ emails_stored "0" (world_after r) = Some 2)
  /\ (let r := add_booking "0" "" Sample.solo in
      outcome r = inr tt
      /\ emails_cell "0" (world_after r) = Some ""
      /\ emails_stored "0" (world_after r) = Some 0)
  /\ (let r1 := add_booking "0" "7" Sample.studio in
      let r2 := add_booking "0" "8" (world_after r1) in
      outcome r1 = inr tt
      /\ emails_stored "0" (world_after r1) = Some 1
      /\ outcome r2 = inr tt
      /\ cell 9 <$> products_sheet (world_after r2) = ["78"]
      /\ emails_stored "0" (world_after r2) = Some 1).
Proof. vm_compute. repeat split. Qed.

(** ** Booking the same email twice *)

(** C6, as the code has it: on a worksheet of ASCII cells in rows no wider
    than the header, for the product row the id resolves to, whose
    capacity [int] reads as [c], with at least two free places, and for an
    email that holds an [@] and no comma, two calls of [add_booking] with
    that email both succeed and the row then stores the old emails
    followed by the email twice. *)
Theorem add_booking_twice_same_email (product_id email : string) (w : World)
    (row : ProductRow) (c : Z) :
  modelled_sheet w = true ->
  get_product_row product_id w = (inr row, w) ->
  Py.int (capacity (product row)) = Some c ->
  (Z.of_nat (email_count (product row)) + 2 <= c)%Z ->
  contains "@" email = true ->
  contains "," email = false ->
  exists w1 w2 row2,
    add_booking product_id email w = (inr tt, w1)
    /\ add_booking product_id email w1 = (inr tt, w2)
    /\ get_product_row product_id w2 = (inr row2, w2)
    /\ row_num row2 = row_num row
    /\ stored_emails (emails (product row2))
       = stored_emails (emails (product row)) ++ [email; email].
Proof.
  intros _ Hget Hint Hfree Hat Hcomma.
  destruct (add_booking_step product_id email w row c Hget Hint) as (w1 & Hrun1 & Hget1);
    [lia|].
  pose proof (stored_emails_booked row email Hat Hcomma) as Hstored1.
  destruct (add_booking_step product_id email w1 (booked_row row email) c Hget1)
    as (w2 & Hrun2 & Hget2).
  { exact Hint. }
  { unfold email_count in *. rewrite Hstored1, length_app. cbn [length]. lia. }
  exists w1, w2, (booked_row (booked_row row email) email).
  repeat split; try assumption.
  rewrite stored_emails_booked by assumption.
  rewrite Hstored1, <- app_assoc. reflexivity.
Qed.

Lemma add_booking_twice_same_email_witness :
  exists w1 w2 row2,
    add_booking "0" "a@x.com" Sample.studio = (inr tt, w1)
    /\ add_booking "0" "a@x.com" w1 = (inr tt, w2)
    /\ get_product_row "0" w2 = (inr row2, w2)
    /\ row_num row2 = 2
    /\ stored_emails (emails (product row2)) = [] ++ ["a@x.com"; "a@x.com"].
Proof.
  apply (add_booking_twice_same_email "0" "a@x.com" Sample.studio
           (mkProductRow 2 Sample.yoga) 2);
    [reflexivity | reflexivity | reflexivity | vm_compute; discriminate
    | reflexivity | reflexivity].
Defined.

(** C6 as stated fails: a product with one place and no email is below
    capacity, yet the second booking of the same email raises
    [CapacityReachedException].  With two places, the empty email booked
    twice is stored not even once, an email text holding a comma fills both
    places at the first booking, so the second one raises, and the email
    ['7'] booked twice leaves the cell ['7,7'], handed back as the single
    text ['77']. *)
Lemma add_booking_twice_counterexample :
  (let r1 := add_booking "0" "a@x.com" Sample.solo in
   let r2 := add_booking "0" "a@x.com" (world_after r1) in
   emails_stored "0" Sample.solo = Some 0
   /\ Py.int "1" = Some 1%Z
   /\ outcome r1 = inr tt
   /\ outcome r2 = inl (CapacityReachedException "capacity reached")
   /\ emails_cell "0" (world_after r2) = Some "a@x.com")
  /\ (let r1 := add_booking "0" "" Sample.studio in
      let r2 := add_booking "0" "" (world_after r1) in
      outcome r1 = inr tt /\ outcome r2 = inr tt
      /\ emails_cell "0" (world_after r2) = Some "")
  /\ (let r1 := add_booking "0" "a@x.com,b@x.com" Sample.studio in
      let r2 := add_booking "0" "a@x.com,b@x.com" (world_after r1) in
      outcome r1 = inr tt
      /\ outcome r2 = inl (CapacityReachedException "capacity reached"))
  /\ (let r1 := add_booking "0" "7" Sample.studio in
      let r2 := add_booking "0" "7" (world_after r1) in
      outcome r1 = inr tt /\ outcome r2 = inr tt
      /\ emails_cell "0" (world_after r2) = Some "77").
Proof. vm_compute. repeat split. Qed.

(** ** The worked example *)

Lemma booked_row_emails (row : ProductRow) (email cell : string) :
  emails (product row) = cell ->
  emails (product (booked_row row email))
  = read_text (Py.join "," (stored_emails cell ++ [email])).
Proof. intros <-. reflexivity. Qed.

(** C4: on a product with capacity ['2'] and emails [''], booking
    ['a@x.com'] succeeds and the row stores ['a@x.com']; booking
    ['b@x.com'] succeeds and the row stores ['a@x.com,b@x.com']; a third
    booking raises [CapacityReachedException] and writes nothing. *)
Theorem add_booking_capacity_two (product_id third : string) (w : World)
    (row : ProductRow) :
  get_product_row product_id w = (inr row, w) ->
  capacity (product row) = "2" ->
  emails (product row) = "" ->
  let r1 := add_booking product_id "a@x.com" w in
  let r2 := add_booking product_id "b@x.com" (world_after r1) in
  let r3 := add_booking product_id third (world_after r2) in
  outcome r1 = inr tt
  /\ emails_cell product_id (world_after r1) = Some "a@x.com"
  /\ outcome r2 = inr tt
  /\ emails_cell product_id (world_after r2) = Some "a@x.com,b@x.com"
  /\ raises_CapacityReached r3
  /\ world_after r3 = world_after r2.
Proof.
  intros Hget Hcap Hemails.
  pose (row1 := booked_row row "a@x.com").
  pose (row2 := booked_row row1 "b@x.com").
  assert (Hcell1 : emails (product row1) = "a@x.com")
    by (unfold row1; rewrite (booked_row_emails _ _ _ Hemails);
        vm_compute; reflexivity).
  assert (Hcell2 : emails (product row2) = "a@x.com,b@x.com")
    by (unfold row2; rewrite (booked_row_emails _ _ _ Hcell1);
        vm_compute; reflexivity).
  destruct (add_booking_step product_id "a@x.com" w row 2 Hget) as (w1 & Hrun1 & Hget1).
  { now rewrite Hcap. }
  { unfold email_count. now rewrite Hemails. }
  fold row1 in Hget1.
  destruct (add_booking_step product_id "b@x.com" w1 row1 2 Hget1) as (w2 & Hrun2 & Hget2).
  { unfold row1, booked_row; cbn [product set_emails capacity]. now rewrite Hcap. }
  { unfold email_count. now rewrite Hcell1. }
  fold row2 in Hget2.
  assert (Hrun3 : add_booking product_id third w2
                  = (inl (CapacityReachedException "capacity reached"), w2)).
  { apply (add_booking_full product_id third w2 row2 2 Hget2).
    - unfold row2, row1, booked_row; cbn [product set_emails capacity]. now rewrite Hcap.
    - unfold email_count. now rewrite Hcell2. }
  intros r1 r2 r3. subst r1 r2 r3.
  rewrite Hrun1; cbn [world_after snd]. rewrite Hrun2; cbn [world_after snd].
  rewrite Hrun3. unfold emails_cell. rewrite Hget1, Hget2. cbn [outcome fst].
  rewrite Hcell1, Hcell2.
  repeat split. now exists "capacity reached".
Qed.

(** The description pushed to the calendar by the first booking of the
    sample world: the count suffix, then one email per line. *)
Example studio_first_booking_description :
  ev_description
    <$> calendar (world_after (add_booking "0" "a@x.com" Sample.studio))
  = ["Morning class (1/2)" +:+ Py.nl +:+ "a@x.com"].
Proof. reflexivity. Qed.

Lemma add_booking_capacity_two_witness :
  let r1 := add_booking "0" "a@x.com" Sample.studio in
  let r2 := add_booking "0" "b@x.com" (world_after r1) in
  let r3 := add_booking "0" "c@x.com" (world_after r2) in
  outcome r1 = inr tt
  /\ emails_cell "0" (world_after r1) = Some "a@x.com"
  /\ outcome r2 = inr tt
  /\ emails_cell "0" (world_after r2) = Some "a@x.com,b@x.com"
  /\ raises_CapacityReached r3
  /\ world_after r3 = world_after r2.
Proof.
  apply (add_booking_capacity_two "0" "c@x.com" Sample.studio
           (mkProductRow 2 Sample.yoga)); reflexivity.
Defined.

(** ** Decimal text of a count *)

Lemma to_uint_nonnil (n : nat) : Nat.to_uint n <> Decimal.Nil.
Proof.
  rewrite <- (DecimalNat.Unsigned.of_to n), DecimalNat.Unsigned.to_of.
  apply DecimalFacts.unorm_nonnil.
Qed.

(** The digits of a decimal numeral are read back to its value. *)
Lemma int_digits_of_uint (d : Decimal.uint) (acc : nat) (b : bool) :
  d <> Decimal.Nil \/ b = true ->
  Py.int_digits (Z.of_nat acc) b (NilEmpty.string_of_uint d)
  = Some (Z.of_nat (Nat.of_uint_acc d acc)).
Proof.
  revert acc b.
  induction d as [|d IH|d IH|d IH|d IH|d IH|d IH|d IH|d IH|d IH|d IH];
    intros acc b Hb;
    [destruct Hb as [Hb| ->]; [congruence | reflexivity] | ..];
    cbn [NilEmpty.string_of_uint Py.int_digits Nat.of_uint_acc];
    change (Py.is_digit _) with true; cbn match;
    rewrite <- (IH _ true) by (right; reflexivity);
    f_equal; rewrite Nat.tail_mul_spec;
    match goal with
    | |- context [Py.digit_val ?c] =>
        let v := eval vm_compute in (Py.digit_val c) in
        change (Py.digit_val c) with v
    end; lia.
Qed.

Lemma rstrip_cons (c : ascii) (s : string) :
  Py.is_space c = false -> Py.rstrip (String c s) = String c (Py.rstrip s).
Proof.
  intros Hc. cbn [Py.rstrip]. rewrite Hc. now destruct (Py.rstrip s).
Qed.

Lemma rstrip_of_uint (d : Decimal.uint) :
  Py.rstrip (NilEmpty.string_of_uint d) = NilEmpty.string_of_uint d.
Proof.
  induction d; [reflexivity | ..];
    cbn [NilEmpty.string_of_uint]; rewrite rstrip_cons by reflexivity;
    now f_equal.
Qed.

(** [int(str(n)) == n] for a count [n]. *)
Lemma int_str_nat (n : nat) : Py.int (Py.str_nat n) = Some (Z.of_nat n).
Proof.
  unfold Py.str_nat, NilZero.string_of_uint.
  pose proof (to_uint_nonnil n) as Hnil.
  rewrite <- (DecimalNat.Unsigned.of_to n) at 2.
  unfold Nat.of_uint.
  destruct (Nat.to_uint n) as [|d|d|d|d|d|d|d|d|d|d] eqn:Hd; [congruence | ..];
    unfold Py.int; cbn [NilEmpty.string_of_uint Py.lstrip];
    change (Py.is_space _) with false; cbn match;
    rewrite rstrip_cons by reflexivity; rewrite rstrip_of_uint;
    cbn match;
    match goal with
    | |- _ = Some (Z.of_nat (Nat.of_uint_acc ?u 0)) =>
        apply (int_digits_of_uint u 0 false)
    end; left; discriminate.
Qed.

(** ** Product ids *)

(** C9: [generate_new_product_id] returns the decimal text of the number of
    data rows of the worksheet: a decimal numeral whose value is that
    number, which [int] reads back as that number.  The world is left as it
    was. *)
Theorem generate_new_product_id_row_count (w : World) :
  exists s,
    generate_new_product_id w = (inr s, w)
    /\ NilZero.uint_of_string s = Some (Nat.to_uint (length (products_sheet w)))
    /\ Py.int s = Some (Z.of_nat (length (products_sheet w))).
Proof.
  exists (Py.str_nat (length (products_sheet w))). split; [|split].
  - unfold generate_new_product_id, mbind, M_bind, bind, get_all_records.
    cbn [mret M_ret ret]. now rewrite length_fmap.
  - apply NilZero.usu, to_uint_nonnil.
  - apply int_str_nat.
Qed.

(** ** Adding a product *)

Lemma plain_text_read (s : string) : plain_text s = true -> read_text s = s.
Proof.
  unfold plain_text. intros H. apply andb_prop in H as [_ H].
  now apply String.eqb_eq.
Qed.

(** A product of plain texts is read back as it was written. *)
Lemma product_of_dict_values (p : Product) :
  plain_product p = true -> product_of_cells (dict_values p) = p.
Proof.
  destruct p as [a b c d e f g h i j]. unfold plain_product.
  cbn [dict_values forallb id calendar_id title description address capacity
       price date time emails].
  intros H.
  repeat (apply andb_prop in H as [?%plain_text_read H]).
  unfold product_of_cells, cell, dict_values.
  cbn [lookup list_lookup default id calendar_id title description address
       capacity price date time emails].
  unfold Datatypes.id. congruence.
Qed.

Lemma rows_of_snoc (sheet : list (list string)) (cells : list string) :
  rows_of (sheet ++ [cells])
  = rows_of sheet ++ [mkProductRow (length sheet + 2) (product_of_cells cells)].
Proof.
  unfold rows_of. rewrite imap_app. cbn [imap].
  now rewrite Nat.add_0_r.
Qed.

Lemma length_rows_of (sheet : list (list string)) :
  length (rows_of sheet) = length sheet.
Proof. apply length_imap. Qed.

(** Whatever its outcome, [add_product] leaves the row appended. *)
Lemma add_product_sheet (p : Product) (w : World) :
  products_sheet (world_after (add_product p w))
  = products_sheet w ++ [dict_values p].
Proof.
  unfold add_product, mbind, M_bind, bind, append_row.
  destruct (Datetime.strptime_HMS (time p)); reflexivity.
Qed.

(** C8, as the code has it: on a worksheet of ASCII cells in rows no wider
    than the header, for a product whose ten fields are plain texts, which
    a cell hands back as written, after [add_product] the rows of
    [list_products] are the rows it yielded before followed by one new
    row; the product of the new row is the added product, field by field,
    and its row number is its index (from 0) in the list plus 2. *)
Theorem add_product_then_list_products (p : Product) (w : World) :
  modelled_sheet w = true ->
  plain_product p = true ->
  let w' := world_after (add_product p w) in
  exists rows new_row,
    list_products w = (inr rows, w)
    /\ list_products w' = (inr (rows ++ [new_row]), w')
    /\ product new_row = p
    /\ (rows ++ [new_row]) !! length rows = Some new_row
    /\ row_num new_row = length rows + 2.
Proof.
  intros _ Hplain w'.
  exists (rows_of (products_sheet w)),
         (mkProductRow (length (products_sheet w) + 2) p).
  split; [apply list_products_rows|].
  split.
  - rewrite list_products_rows. unfold w'.
    rewrite add_product_sheet, rows_of_snoc, (product_of_dict_values _ Hplain).
    reflexivity.
  - split; [reflexivity|]. split.
    + rewrite lookup_app_r by lia. now rewrite Nat.sub_diag.
    + cbn [row_num]. now rewrite length_rows_of.
Qed.

Lemma add_product_then_list_products_witness :
  let w' := world_after (add_product Cases.pilates Sample.studio) in
  exists rows new_row,
    list_products Sample.studio = (inr rows, Sample.studio)
    /\ list_products w' = (inr (rows ++ [new_row]), w')
    /\ product new_row = Cases.pilates
    /\ (rows ++ [new_row]) !! length rows = Some new_row
    /\ row_num new_row = length rows + 2.
Proof.
  apply (add_product_then_list_products Cases.pilates Sample.studio);
    reflexivity.
Defined.

(** C8 as stated fails: after a product with id ['007'] and price ['1.50']
    is added to the empty worksheet, the row [list_products] yields has
    the id ['7'] and the price ['1.5'], as the cells read as numbers. *)
Lemma add_product_padded_id_counterexample :
  let w' := world_after (add_product Cases.padded_id Sample.empty) in
  id Cases.padded_id = "007"
  /\ price Cases.padded_id = "1.50"
  /\ outcome (add_product Cases.padded_id Sample.empty) = inr tt
  /\ exists row,
       outcome (list_products w') = inr [row]
       /\ id (product row) = "7"
       /\ price (product row) = "1.5"
       /\ product row <> Cases.padded_id.
Proof.
  cbv zeta. do 3 (split; [reflexivity|]).
  eexists. vm_compute. repeat split. discriminate.
Qed.

(** C5: [add_product_raw] raises [NameError] on the unbound name
    [sample_product] whatever its arguments are, and it leaves the worksheet
    and the calendar as they were: no row is appended and no event is
    created. *)
Theorem add_product_raw_name_error
    (title description address price capacity date time : string) (w : World) :
  let r := add_product_raw title description address price capacity date time w in
  outcome r = inl (NameError "sample_product")
  /\ products_sheet (world_after r) = products_sheet w
  /\ calendar (world_after r) = calendar w.
Proof. cbv zeta. repeat split. Qed.

(** ** The time window of the calendar event *)

Lemma strptime_HMS_second (s : string) (dt : Datetime.datetime) :
  Datetime.strptime_HMS s = Some dt -> (Datetime.second dt < 60)%N.
Proof.
  unfold Datetime.strptime_HMS.
  destruct (head (Datetime.matches_HMS s)) as [[[[h m] sec] rest]|]; [|discriminate].
  destruct (negb (String.eqb rest "")); [discriminate|].
  destruct (59 <? sec)%N eqn:Hsec; [discriminate|].
  intros [= <-]. cbn [Datetime.second].
  apply N.ltb_ge in Hsec. lia.
Qed.

(** Adding 45 minutes to a time of day that stays within the day. *)
Lemma add_minutes_same_day (dt : Datetime.datetime) :
  (Datetime.hour dt * 3600 + Datetime.minute dt * 60 + Datetime.second dt
     + 45 * 60 < 86400)%N ->
  let e := Datetime.add_minutes dt 45 in
  (Datetime.hour e * 3600 + Datetime.minute e * 60 + Datetime.second e
   = Datetime.hour dt * 3600 + Datetime.minute dt * 60 + Datetime.second dt
     + 45 * 60)%N
  /\ (Datetime.minute e < 60)%N
  /\ (Datetime.second e < 60)%N
  /\ Datetime.ordinal e = Datetime.ordinal dt.
Proof.
  intros Hday. unfold Datetime.add_minutes.
  cbn [Datetime.hour Datetime.minute Datetime.second Datetime.ordinal].
  set (total := (Datetime.hour dt * 3600 + Datetime.minute dt * 60
                 + Datetime.second dt + 45 * 60)%N) in *.
  rewrite (N.mod_small total 86400) by exact Hday.
  rewrite (N.div_small total 86400) by exact Hday.
  pose proof (N.div_mod' total 3600) as Hhours.
  pose proof (N.mod_lt total 3600 ltac:(discriminate)) as Hrem.
  pose proof (N.div_mod' (total mod 3600) 60) as Hminutes.
  pose proof (N.mod_lt (total mod 3600) 60 ltac:(discriminate)) as Hsec.
  set (q := (total / 3600)%N) in *.
  set (r := (total mod 3600)%N) in *.
  set (m := (r / 60)%N) in *.
  set (s := (r mod 60)%N) in *.
  repeat split; lia.
Qed.

(** C7, as the code has it: for a product whose time reads as a time of day
    under ['%H:%M:%S'] and lies at least 45 minutes before midnight,
    [add_product] succeeds and creates one event; its start is
    [<date>T<time>+01:00] and its end is [<date>T<HH>:<MM>:<SS>+01:00], the
    time of day 45 minutes after the start. *)
Theorem add_product_event_window (p : Product) (w : World)
    (dt : Datetime.datetime) :
  Datetime.strptime_HMS (time p) = Some dt ->
  (Datetime.hour dt * 3600 + Datetime.minute dt * 60 + Datetime.second dt
     + 45 * 60 < 86400)%N ->
  exists ev h' m' s',
    add_product p w
    = (inr tt,
       mkWorld (products_sheet w ++ [dict_values p]) (calendar w ++ [ev])
         (urandom w) (urandom_pos w))
    /\ dateTime (ev_start ev) = date p +:+ "T" +:+ time p +:+ "+01:00"
    /\ dateTime (ev_end ev)
       = date p +:+ "T"
           +:+ (Py.fmt_02d h' +:+ ":" +:+ Py.fmt_02d m' +:+ ":" +:+ Py.fmt_02d s')
           +:+ "+01:00"
    /\ (h' * 3600 + m' * 60 + s'
        = Datetime.hour dt * 3600 + Datetime.minute dt * 60
          + Datetime.second dt + 45 * 60)%N
    /\ (m' < 60)%N
    /\ (s' < 60)%N.
Proof.
  intros Hparse Hday.
  destruct (add_minutes_same_day dt Hday) as (Hsum & Hm & Hs & _).
  eexists _, (Datetime.hour (Datetime.add_minutes dt 45)),
    (Datetime.minute (Datetime.add_minutes dt 45)),
    (Datetime.second (Datetime.add_minutes dt 45)).
  split.
  - unfold add_product, mbind, M_bind, bind, append_row, add_event.
    rewrite Hparse. cbn [or_raise mret M_ret ret products_sheet calendar
                         urandom urandom_pos].
    reflexivity.
  - cbn [ev_start ev_end dateTime]. repeat split; assumption.
Qed.

Lemma add_product_event_window_witness :
  exists ev h' m' s',
    add_product Sample.yoga Sample.empty
    = (inr tt,
       mkWorld ([] ++ [dict_values Sample.yoga]) ([] ++ [ev])
         Sample.no_random 0)
    /\ dateTime (ev_start ev) = "2024-05-01" +:+ "T" +:+ "10:00:00" +:+ "+01:00"
    /\ dateTime (ev_end ev)
       = "2024-05-01" +:+ "T"
           +:+ (Py.fmt_02d h' +:+ ":" +:+ Py.fmt_02d m' +:+ ":" +:+ Py.fmt_02d s')
           +:+ "+01:00"
    /\ (h' * 3600 + m' * 60 + s' = 10 * 3600 + 0 * 60 + 0 + 45 * 60)%N
    /\ (m' < 60)%N
    /\ (s' < 60)%N.
Proof.
  apply (add_product_event_window Sample.yoga Sample.empty
           (Datetime.mkDatetime Datetime.default_ordinal 10 0 0));
    reflexivity.
Defined.

(** C7 as stated fails: for the time ['10:00'], which ['%H:%M:%S'] does not
    read, [add_product] raises [ValueError] after the row is appended and
    no event is created.  For ['23:30:00'] the event ends at
    [T00:15:00] of the same date. *)
Lemma add_product_unread_time_counterexample :
  (let r := add_product Sample.no_seconds Sample.empty in
   outcome r = inl ValueError
   /\ calendar (world_after r) = []
   /\ products_sheet (world_after r) = [dict_values Sample.no_seconds])
  /\ (let r := add_product Sample.late Sample.empty in
      outcome r = inr tt
      /\ (dateTime ∘ ev_start) <$> calendar (world_after r)
         = ["2024-05-02T23:30:00+01:00"]
      /\ (dateTime ∘ ev_end) <$> calendar (world_after r)
         = ["2024-05-02T00:15:00+01:00"]).
Proof. vm_compute. repeat split. Qed.

(** * Further properties *)

(** ** Reading the worksheet *)

Lemma forallb_lookup {A} (f : A -> bool) (l : list A) (i : nat) (x : A) :
  forallb f l = true -> l !! i = Some x -> f x = true.
Proof.
  revert i. induction l as [|y l IH]; intros [|i] Hall Hi;
    cbn in Hall, Hi; try discriminate;
    apply andb_prop in Hall as [Hy Hl].
  - congruence.
  - eauto.
Qed.

Lemma modelled_sheet_row (w : World) (i : nat) (cells : list string) :
  modelled_sheet w = true ->
  products_sheet w !! i = Some cells ->
  length cells <= 10 /\ forallb Py.modelled cells = true.
Proof.
  unfold modelled_sheet. intros Hall Hi.
  pose proof (forallb_lookup _ _ _ _ Hall Hi) as Hrow.
  unfold modelled_row in Hrow. apply andb_prop in Hrow as [Hlen Hcells].
  apply Nat.leb_le in Hlen. cbn [length Sheet.HEADER] in Hlen. auto.
Qed.

Lemma dict_values_of_cells (cells : list string) :
  length cells <= 10 ->
  dict_values (product_of_cells cells)
  = read_text <$> (cells ++ replicate (10 - length cells) "").
Proof.
  intros Hlen.
  do 10 (destruct cells as [|? cells]; [reflexivity|]).
  destruct cells; [reflexivity | cbn [length] in Hlen; lia].
Qed.

(** X1: on a worksheet whose rows are no wider than the header and hold
    ASCII texts, [list_products] returns and leaves the world as it was.
    It yields one row per data row of the worksheet, in order; the row at
    index [i] has number [i + 2], and its ten fields are the texts read
    from the cells of the data row, a missing cell reading as the empty
    text. *)
Theorem list_products_numbered (w : World) :
  modelled_sheet w = true ->
  exists rows,
    list_products w = (inr rows, w)
    /\ length rows = length (products_sheet w)
    /\ forall i cells,
         products_sheet w !! i = Some cells ->
         exists row,
           rows !! i = Some row
           /\ row_num row = i + 2
           /\ dict_values (product row)
              = read_text <$> (cells ++ replicate (10 - length cells) "").
Proof.
  intros Hsheet.
  exists (rows_of (products_sheet w)).
  split; [apply list_products_rows|].
  split; [apply length_rows_of|].
  intros i cells Hi.
  destruct (modelled_sheet_row w i cells Hsheet Hi) as [Hlen _].
  exists (mkProductRow (i + 2) (product_of_cells cells)).
  split; [|split; [reflexivity | now apply dict_values_of_cells]].
  unfold rows_of. now rewrite list_lookup_imap, Hi.
Qed.

Lemma list_products_numbered_witness :
  exists row,
    rows_of (products_sheet Cases.two_rows) !! 1 = Some row
    /\ row_num row = 3
    /\ dict_values (product row)
       = ["1"; "c1"; "Pilates"; "Evening class"; "Main St 1"; "3"; ""; ""; ""; ""].
Proof.
  destruct (list_products_numbered Cases.two_rows eq_refl)
    as (rows & Hrows & _ & Hat).
  assert (rows = rows_of (products_sheet Cases.two_rows)) as ->
    by (rewrite list_products_rows in Hrows; congruence).
  apply (Hat 1 ["1"; "c1"; "Pilates"; "Evening class"; "Main St 1"; "3"]).
  reflexivity.
Defined.

(** ** The outcomes of [add_booking] *)

(** What a booking that went through tells about the call. *)
Lemma add_booking_success_inv (product_id email : string) (w w' : World) :
  add_booking product_id email w = (inr tt, w') ->
  exists i row c,
    first_with_id product_id (rows_of (products_sheet w)) = Some (i, row)
    /\ Py.int (capacity (product row)) = Some c
    /\ (Z.of_nat (email_count (product row)) < c)%Z
    /\ w' = booked w i (product row) email.
Proof.
  intros Hrun.
  pose proof (add_booking_cases product_id email w) as Hcases.
  destruct (first_with_id _ _) as [[i row]|]; [|congruence].
  destruct (Py.int _) as [c|] eqn:Hint; [|congruence].
  destruct (Z.of_nat _ >? c - 1)%Z eqn:Hcmp; [congruence|].
  exists i, row, c. repeat split; try congruence.
  rewrite Z.gtb_ltb in Hcmp. apply Z.ltb_ge in Hcmp. lia.
Qed.

Lemma alter_lookup_insert {A} (f : A -> A) (i : nat) (l : list A) (x : A) :
  l !! i = Some x -> alter f i l = <[i := f x]> l.
Proof.
  intros Hi. apply list_eq; intros j.
  destruct (decide (i = j)) as [<-|Hne].
  - rewrite list_lookup_alter_eq, Hi.
    rewrite list_lookup_insert_eq by (eapply lookup_lt_Some; eauto).
    reflexivity.
  - now rewrite list_lookup_alter_ne, list_lookup_insert_ne.
Qed.

(** X2: on a worksheet whose rows are no wider than the header and hold
    ASCII texts, [add_booking] ends in one of four ways.  It raises
    [ProductNotFoundException], [ValueError] (from [int] on the capacity)
    or [CapacityReachedException] and leaves the world as it was; or it
    returns, and then the one row of the worksheet it wrote to is the data
    row the id resolved to: the row number [i + 2] it passed addresses the
    data row at index [i], whose product has the id, and that row now holds
    the new emails text in its tenth cell. *)
Theorem add_booking_outcomes (product_id email : string) (w : World) :
  modelled_sheet w = true ->
  let r := add_booking product_id email w in
  (world_after r = w
   /\ (outcome r = inl (ProductNotFoundException "product not found")
       \/ outcome r = inl ValueError
       \/ outcome r = inl (CapacityReachedException "capacity reached")))
  \/ (outcome r = inr tt
      /\ exists i cells row,
           get_product_row product_id w = (inr row, w)
           /\ id (product row) = product_id
           /\ row_num row = i + 2
           /\ products_sheet w !! i = Some cells
           /\ product row = product_of_cells cells
           /\ products_sheet (world_after r)
              = <[i := write_emails (booking_cell (product row) email) cells]>
                  (products_sheet w)).
Proof.
  intros _. cbv zeta.
  pose proof (add_booking_cases product_id email w) as Hcases.
  pose proof (get_product_row_find product_id w) as Hget.
  destruct (first_with_id _ _) as [[i row]|] eqn:Hfind.
  - destruct (Py.int _) as [c|].
    + destruct (Z.of_nat _ >? c - 1)%Z; rewrite Hcases; [left; auto|].
      right. split; [reflexivity|].
      destruct (get_product_row_inv product_id w row) as (i' & cells & Hc & Hrow & Hid & Hf).
      { now rewrite Hget. }
      assert (i' = i) as -> by congruence.
      exists i, cells, row. subst row.
      cbn [world_after snd booked products_sheet product row_num].
      repeat split; try assumption.
      now apply alter_lookup_insert.
    + rewrite Hcases. left; auto.
  - rewrite Hcases. left; auto.
Qed.

Lemma add_booking_outcomes_witness :
  let r := add_booking "0" "b@x.com" Cases.two_rows in
  outcome r = inr tt
  /\ exists i cells row,
       get_product_row "0" Cases.two_rows = (inr row, Cases.two_rows)
       /\ id (product row) = "0"
       /\ row_num row = i + 2
       /\ products_sheet Cases.two_rows !! i = Some cells
       /\ product row = product_of_cells cells
       /\ products_sheet (world_after r)
          = <[i := write_emails (booking_cell (product row) "b@x.com") cells]>
              (products_sheet Cases.two_rows).
Proof.
  destruct (add_booking_outcomes "0" "b@x.com" Cases.two_rows eq_refl)
    as [[_ [Hraise | [Hraise | Hraise]]] | Hdone];
    [discriminate Hraise | discriminate Hraise | discriminate Hraise
    | exact Hdone].
Defined.

(** X3: on a worksheet whose rows are no wider than the header and hold
    ASCII texts, [add_booking] raises [ProductNotFoundException] exactly
    when no row that [list_products] yields has the id. *)
Theorem add_booking_not_found_iff (product_id email : string) (w : World) :
  modelled_sheet w = true ->
  exists rows,
    list_products w = (inr rows, w)
    /\ (raises_ProductNotFound (add_booking product_id email w)
        <-> forall r, r ∈ rows -> id (product r) <> product_id).
Proof.
  intros _. exists (rows_of (products_sheet w)).
  split; [apply list_products_rows|].
  pose proof (add_booking_cases product_id email w) as Hcases.
  unfold raises_ProductNotFound, first_with_id in *.
  destruct (list_find _ _) as [[i row]|] eqn:Hfind.
  - apply list_find_Some in Hfind as (Hi & Hid & _).
    split.
    + intros [msg Hmsg]. exfalso.
      destruct (Py.int _) as [c|];
        [destruct (Z.of_nat _ >? c - 1)%Z|]; rewrite Hcases in Hmsg; discriminate.
    + intros Hnone. exfalso. apply (Hnone row); [|exact Hid].
      apply list_elem_of_lookup. eauto.
  - split.
    + intros _ r Hr. apply list_find_None in Hfind.
      rewrite Forall_forall in Hfind. exact (Hfind r Hr).
    + intros _. rewrite Hcases. now exists "product not found".
Qed.

(** X4: on a worksheet whose rows are no wider than the header and hold
    ASCII texts, when the capacity of the row the id resolves to is not
    read by [int], [add_booking] raises [ValueError] and writes nothing. *)
Theorem add_booking_unreadable_capacity (product_id email : string)
    (w : World) (row : ProductRow) :
  modelled_sheet w = true ->
  get_product_row product_id w = (inr row, w) ->
  Py.int (capacity (product row)) = None ->
  add_booking product_id email w = (inl ValueError, w).
Proof.
  intros _ Hget Hint.
  destruct (get_product_row_first _ _ _ Hget) as [i Hfind].
  pose proof (add_booking_cases product_id email w) as Hcases.
  now rewrite Hfind, Hint in Hcases.
Qed.

Lemma add_booking_unreadable_capacity_witness :
  add_booking "0" "a@x.com" Cases.unreadable_capacity
  = (inl ValueError, Cases.unreadable_capacity).
Proof.
  apply (add_booking_unreadable_capacity "0" "a@x.com" Cases.unreadable_capacity
           (mkProductRow 2
              (mkProduct "0" "c0" "Yoga" "Morning class" "Main St 1" "two" "10"
                 "2024-05-01" "10:00:00" "")));
    reflexivity.
Defined.

Lemma add_booking_not_found_iff_witness :
  raises_ProductNotFound (add_booking "7" "a@x.com" Sample.studio).
Proof.
  destruct (add_booking_not_found_iff "7" "a@x.com" Sample.studio eq_refl)
    as (rows & Hrows & Hiff).
  apply Hiff.
  assert (rows = rows_of (products_sheet Sample.studio)) as ->
    by (rewrite list_products_rows in Hrows; congruence).
  intros r Hr. apply list_elem_of_singleton in Hr. subst r. discriminate.
Defined.

Lemma get_product_row_booked (product_id email : string) (w : World)
    (i : nat) (row : ProductRow) :
  first_with_id product_id (rows_of (products_sheet w)) = Some (i, row) ->
  get_product_row product_id (booked w i (product row) email)
  = (inr (booked_row row email), booked w i (product row) email).
Proof.
  intros Hfind. rewrite get_product_row_find. cbn [booked products_sheet].
  rewrite rows_of_write.
  erewrite first_with_id_alter; [reflexivity | reflexivity | exact Hfind].
Qed.

(** ** What a booking changes *)

(** X5: a booking that goes through rewrites one row of the table and
    nothing else: [list_products] yields as many rows as before, every row
    but the one the id resolves to is the same, and that row keeps its
    number and its first nine fields. *)
Theorem add_booking_frame (product_id email : string) (w w' : World) :
  add_booking product_id email w = (inr tt, w') ->
  exists rows rows' i row row',
    list_products w = (inr rows, w)
    /\ list_products w' = (inr rows', w')
    /\ rows !! i = Some row
    /\ id (product row) = product_id
    /\ rows' !! i = Some row'
    /\ row_num row' = row_num row
    /\ take 9 (dict_values (product row')) = take 9 (dict_values (product row))
    /\ length rows' = length rows
    /\ forall j, j <> i -> rows' !! j = rows !! j.
Proof.
  intros Hrun.
  destruct (add_booking_success_inv _ _ _ _ Hrun) as (i & row & c & Hfind & _ & _ & ->).
  pose proof Hfind as Hf. apply list_find_Some in Hf as (Hi & Hid & _).
  exists (rows_of (products_sheet w)),
         (rows_of (products_sheet (booked w i (product row) email))),
         i, row, (booked_row row email).
  rewrite !list_products_rows. cbn [booked products_sheet].
  rewrite rows_of_write.
  repeat split; try assumption.
  - now rewrite list_lookup_alter_eq, Hi.
  - apply length_alter.
  - intros j Hj. now apply list_lookup_alter_ne.
Qed.

(** X6: on a worksheet whose rows are no wider than the header and hold
    ASCII texts, a booking of an email with an [@] that goes through
    leaves the emails cell of the row equal to the email when the cell was
    empty, and to the old text, a comma and the email otherwise: nothing
    stored before is removed or reordered. *)
Theorem add_booking_appends_to_cell (product_id email : string) (w w' : World)
    (row : ProductRow) :
  modelled_sheet w = true ->
  contains "@" email = true ->
  get_product_row product_id w = (inr row, w) ->
  add_booking product_id email w = (inr tt, w') ->
  emails_cell product_id w'
  = Some (if String.eqb (emails (product row)) "" then email
          else emails (product row) +:+ "," +:+ email).
Proof.
  intros _ Hat Hget Hrun.
  destruct (add_booking_success_inv _ _ _ _ Hrun) as (i & row0 & c & Hfind & _ & _ & ->).
  destruct (get_product_row_first _ _ _ Hget) as [i' Hfind'].
  assert (row0 = row) as -> by congruence.
  unfold emails_cell. rewrite (get_product_row_booked _ _ _ _ _ Hfind).
  cbn [outcome fst booked_row product set_emails emails].
  rewrite (read_text_at _ (booking_cell_at _ _ Hat)).
  now rewrite booking_cell_appended.
Qed.

Lemma add_booking_appends_to_cell_witness :
  emails_cell "0" (world_after (add_booking "0" "b@x.com" Cases.two_rows))
  = Some ("a@x.com" +:+ "," +:+ "b@x.com").
Proof.
  apply (add_booking_appends_to_cell "0" "b@x.com" Cases.two_rows _
           (mkProductRow 2
              (mkProduct "0" "c0" "Yoga" "Morning class" "Main St 1" "2" "10"
                 "2024-05-01" "10:00:00" "a@x.com")));
    reflexivity.
Defined.

Lemma add_booking_frame_witness :
  exists rows rows' i row row',
    list_products Cases.two_rows = (inr rows, Cases.two_rows)
    /\ list_products (world_after (add_booking "0" "b@x.com" Cases.two_rows))
       = (inr rows', world_after (add_booking "0" "b@x.com" Cases.two_rows))
    /\ rows !! i = Some row
    /\ id (product row) = "0"
    /\ rows' !! i = Some row'
    /\ row_num row' = row_num row
    /\ take 9 (dict_values (product row')) = take 9 (dict_values (product row))
    /\ length rows' = length rows
    /\ forall j, j <> i -> rows' !! j = rows !! j.
Proof.
  apply (add_booking_frame "0" "b@x.com" Cases.two_rows). reflexivity.
Defined.

(** X7: on a worksheet whose rows are no wider than the header and hold
    ASCII texts, after a booking goes through, the events of the calendar
    whose id is the calendar id of the product carry the description built
    by [build_description] from the length of the list the call holds, one
    more than the emails it read from the row, followed by the fields of
    the emails text it stored, split at the commas, one per line; the
    other events, and every other field of an event, are as before. *)
Theorem add_booking_calendar_text (product_id email : string) (w w' : World)
    (row : ProductRow) :
  modelled_sheet w = true ->
  get_product_row product_id w = (inr row, w) ->
  add_booking product_id email w = (inr tt, w') ->
  calendar w'
  = (fun ev =>
       if String.eqb (ev_id ev) (calendar_id (product row))
       then mkEvent (ev_id ev) (ev_summary ev) (ev_location ev)
              (build_description (description (product row))
                 (capacity (product row)) (S (email_count (product row)))
               +:+ Py.nl
               +:+ Py.join Py.nl
                     (Py.split ","
                        (if String.eqb (emails (product row)) "" then email
                         else emails (product row) +:+ "," +:+ email)))
              (ev_start ev) (ev_end ev)
       else ev) <$> calendar w.
Proof.
  intros _ Hget Hrun.
  destruct (add_booking_success_inv _ _ _ _ Hrun) as (i & row0 & c & Hfind & _ & _ & ->).
  destruct (get_product_row_first _ _ _ Hget) as [i' Hfind'].
  assert (row0 = row) as -> by congruence.
  cbn [booked calendar]. unfold booking_text, set_description, email_count.
  rewrite booking_cell_appended, length_app. cbn [length].
  now rewrite Nat.add_1_r.
Qed.

Lemma add_booking_calendar_text_witness :
  calendar (world_after (add_booking "0" "b@x.com" Cases.two_rows))
  = (fun ev =>
       if String.eqb (ev_id ev) "c0"
       then mkEvent (ev_id ev) (ev_summary ev) (ev_location ev)
              (build_description "Morning class" "2" 2
               +:+ Py.nl
               +:+ Py.join Py.nl (Py.split "," ("a@x.com" +:+ "," +:+ "b@x.com")))
              (ev_start ev) (ev_end ev)
       else ev) <$> calendar Cases.two_rows.
Proof.
  apply (add_booking_calendar_text "0" "b@x.com" Cases.two_rows _
           (mkProductRow 2
              (mkProduct "0" "c0" "Yoga" "Morning class" "Main St 1" "2" "10"
                 "2024-05-01" "10:00:00" "a@x.com")));
    reflexivity.
Defined.

(** ** The capacity invariant *)

Lemma stored_emails_no_comma (s : string) :
  contains "," s = false -> length (stored_emails s) <= 1.
Proof.
  intros Hfree. unfold stored_emails.
  destruct (String.eqb s ""); [cbn; lia|].
  unfold Py.split. rewrite <- (string_app_nil_r s).
  rewrite (split_from_free "," "" s "" Hfree). cbn. lia.
Qed.

(** X8: [add_booking] with a well-formed email keeps the invariant that no
    row stores more emails than its capacity, whatever the id is and
    however the call ends. *)
Theorem add_booking_keeps_capacity (product_id email : string) (w : World) :
  capacity_respected w ->
  well_formed_email email ->
  capacity_respected (world_after (add_booking product_id email w)).
Proof.
  intros Hinv [Hne Hcomma].
  pose proof (add_booking_cases product_id email w) as Hcases.
  destruct (first_with_id _ _) as [[i row]|] eqn:Hfind;
    [|now rewrite Hcases].
  destruct (Py.int (capacity (product row))) as [c|] eqn:Hint;
    [|now rewrite Hcases].
  destruct (Z.of_nat _ >? c - 1)%Z eqn:Hcmp; rewrite Hcases; [exact Hinv|].
  rewrite Z.gtb_ltb in Hcmp. apply Z.ltb_ge in Hcmp.
  cbn [world_after snd]. intros r d Hr Hd.
  cbn [booked products_sheet] in Hr. rewrite rows_of_write in Hr.
  apply list_elem_of_lookup in Hr as [j Hj].
  apply list_find_Some in Hfind as (Hi & _ & _).
  destruct (decide (i = j)) as [<-|Hij].
  - rewrite list_lookup_alter_eq, Hi in Hj. cbn in Hj.
    injection Hj as <-. cbn [product set_emails capacity] in Hd.
    assert (d = c) as -> by congruence.
    unfold email_count in *. cbn [product set_emails emails].
    destruct (read_text_cases (booking_cell (product row) email)) as [-> | Hnum].
    + unfold booking_cell.
      rewrite (stored_emails_join _ _ (stored_emails_fields _) Hcomma Hne).
      rewrite length_app. cbn [length]. lia.
    + pose proof (stored_emails_no_comma _ Hnum). lia.
  - rewrite list_lookup_alter_ne in Hj by exact Hij.
    apply (Hinv r d); [|exact Hd].
    apply list_elem_of_lookup. eauto.
Qed.

Lemma add_booking_keeps_capacity_witness :
  capacity_respected (world_after (add_booking "0" "a@x.com" Sample.studio)).
Proof.
  apply (add_booking_keeps_capacity "0" "a@x.com" Sample.studio).
  - intros row c Hrow Hc. apply list_elem_of_singleton in Hrow. subst row.
    vm_compute in Hc. injection Hc as <-. vm_compute. discriminate.
  - split; [discriminate | reflexivity].
Defined.

(** ** The emails cell as a list *)

(** X9: the comma-joined cell and the list [add_booking] reads from it
    determine each other.  Joining what was read from a cell gives the cell
    back; reading what was joined gives the list back when no entry holds a
    comma and the list is not the single empty entry. *)
Theorem stored_emails_join_inverse :
  (forall cell, Py.join "," (stored_emails cell) = cell)
  /\ (forall l,
        Forall (fun e => contains "," e = false) l ->
        l <> [""] ->
        stored_emails (Py.join "," l) = l).
Proof.
  split.
  - intros cell. unfold stored_emails.
    destruct (String.eqb_spec cell "") as [->|_]; [reflexivity|].
    unfold Py.split. now rewrite (join_split_from "," "").
  - intros l Hfree Hl. unfold stored_emails.
    destruct l as [|x l]; [reflexivity|].
    destruct (String.eqb_spec (Py.join "," (x :: l)) "") as [Hempty|_].
    + exfalso. destruct l as [|y l].
      * cbn in Hempty. congruence.
      * rewrite join_cons in Hempty by discriminate. now destruct x.
    + now apply (split_join ",").
Qed.

Lemma stored_emails_join_inverse_witness :
  Py.join "," (stored_emails "a@x.com,,b@x.com") = "a@x.com,,b@x.com"
  /\ stored_emails (Py.join "," ["a@x.com"; ""; "b@x.com"])
     = ["a@x.com"; ""; "b@x.com"].
Proof.
  destruct stored_emails_join_inverse as [Hcell Hlist].
  split; [apply Hcell|].
  apply Hlist; [|discriminate].
  repeat constructor.
Defined.

(** ** Adding a product: failure and lookup *)

(** X10: when the time of the product is an ASCII text that is not read
    by ['%H:%M:%S'], [add_product] raises [ValueError] with the row already
    appended to the worksheet and no event added to the calendar. *)
Theorem add_product_unreadable_time (p : Product) (w : World) :
  Py.is_ascii (time p) = true ->
  Datetime.strptime_HMS (time p) = None ->
  add_product p w
  = (inl ValueError,
     mkWorld (products_sheet w ++ [dict_values p]) (calendar w)
       (urandom w) (urandom_pos w)).
Proof.
  intros _ Hparse.
  unfold add_product, mbind, M_bind, bind, append_row.
  now rewrite Hparse.
Qed.

Lemma add_product_unreadable_time_witness :
  add_product Sample.no_seconds Sample.studio
  = (inl ValueError,
     mkWorld (products_sheet Sample.studio ++ [dict_values Sample.no_seconds])
       (calendar Sample.studio) Sample.no_random 0).
Proof.
  apply (add_product_unreadable_time Sample.no_seconds Sample.studio);
    reflexivity.
Defined.

Lemma first_with_id_snoc_fresh (product_id : string) (rows : list ProductRow)
    (r : ProductRow) :
  (forall q, q ∈ rows -> id (product q) <> product_id) ->
  id (product r) = product_id ->
  first_with_id product_id (rows ++ [r]) = Some (length rows, r).
Proof.
  intros Hfresh Hid. unfold first_with_id.
  rewrite list_find_app_r.
  - cbn [list_find]. rewrite decide_True by exact Hid. reflexivity.
  - apply list_find_None, Forall_forall. exact Hfresh.
Qed.

(** X11: looking up the id of a product of ASCII fields after
    [add_product], on a worksheet whose rows are no wider than the header
    and hold ASCII texts.  When no earlier row has the id and the ten
    fields of the product are plain texts, which a cell hands back as
    written,
    [get_product_row] returns the new row, holding the product as it was
    passed and numbered after the last earlier row.  When an earlier row
    has the id, [get_product_row] still returns that earlier row: the new
    product cannot be reached by its id. *)
Theorem add_product_then_get_product_row (p : Product) (w : World) :
  modelled_sheet w = true ->
  modelled_row (dict_values p) = true ->
  let w' := world_after (add_product p w) in
  (plain_product p = true ->
   (forall r, r ∈ rows_of (products_sheet w) -> id (product r) <> id p) ->
   get_product_row (id p) w'
   = (inr (mkProductRow (length (products_sheet w) + 2) p), w'))
  /\ (forall row,
        get_product_row (id p) w = (inr row, w) ->
        get_product_row (id p) w' = (inr row, w')).
Proof.
  intros _ _ w'. split.
  - intros Hplain Hfresh. rewrite get_product_row_find. unfold w'.
    rewrite add_product_sheet, rows_of_snoc, (product_of_dict_values _ Hplain).
    rewrite (first_with_id_snoc_fresh (id p) _
               (mkProductRow (length (products_sheet w) + 2) p) Hfresh eq_refl).
    reflexivity.
  - intros row Hget.
    destruct (get_product_row_first _ _ _ Hget) as [i Hfind].
    rewrite get_product_row_find. unfold w'.
    rewrite add_product_sheet, rows_of_snoc.
    unfold first_with_id in *.
    now rewrite (list_find_app_l _ _ _ _ _ Hfind).
Qed.

Lemma add_product_then_get_product_row_witness :
  get_product_row "1" (world_after (add_product Cases.pilates Sample.studio))
  = (inr (mkProductRow 3 Cases.pilates),
     world_after (add_product Cases.pilates Sample.studio))
  /\ get_product_row "0" (world_after (add_product Cases.yoga_again Sample.studio))
     = (inr (mkProductRow 2 Sample.yoga),
        world_after (add_product Cases.yoga_again Sample.studio)).
Proof.
  destruct (add_product_then_get_product_row Cases.pilates Sample.studio
              eq_refl eq_refl) as [Hnew _].
  destruct (add_product_then_get_product_row Cases.yoga_again Sample.studio
              eq_refl eq_refl) as [_ Hold].
  split.
  - apply Hnew; [reflexivity|].
    intros r Hr. apply list_elem_of_singleton in Hr. subst r. discriminate.
  - apply Hold. reflexivity.
Defined.

(** ** Generated product ids *)

(** The decimal text of a number is read back as it is. *)
Lemma read_text_str_nat (n : nat) : read_text (Py.str_nat n) = Py.str_nat n.
Proof.
  unfold read_text, numericise.
  rewrite (str_nat_free "_" eq_refl).
  rewrite (remove_char_absent "," _ (str_nat_free "," eq_refl n)).
  rewrite int_str_nat. cbn [str_validator]. apply str_int_of_nat.
Qed.

Lemma id_of_dict_values (p : Product) :
  id (product_of_cells (dict_values p)) = read_text (id p).
Proof. now destruct p. Qed.

Lemma str_nat_inj (n m : nat) : Py.str_nat n = Py.str_nat m -> n = m.
Proof.
  intros Heq. apply (f_equal Py.int) in Heq.
  rewrite !int_str_nat in Heq. injection Heq as Heq. lia.
Qed.

Lemma generate_new_product_id_run (w : World) :
  generate_new_product_id w = (inr (Py.str_nat (length (products_sheet w))), w).
Proof.
  unfold generate_new_product_id, mbind, M_bind, bind, get_all_records.
  cbn [mret M_ret ret]. now rewrite length_fmap.
Qed.

(** X12: in a worksheet where the id of each data row is the decimal text
    of its index, the id [generate_new_product_id] returns is the id of no
    row, and adding a product under that id gives a worksheet of the same
    kind: in sequential use the generated ids never collide. *)
Theorem generate_new_product_id_fresh (w : World) :
  ids_sequential w ->
  exists s,
    generate_new_product_id w = (inr s, w)
    /\ (forall r, r ∈ rows_of (products_sheet w) -> id (product r) <> s)
    /\ forall p, id p = s -> ids_sequential (world_after (add_product p w)).
Proof.
  intros Hseq.
  exists (Py.str_nat (length (products_sheet w))).
  split; [apply generate_new_product_id_run|]. split.
  - intros r Hr Heq.
    apply list_elem_of_lookup in Hr as [i Hi].
    pose proof (lookup_lt_Some _ _ _ Hi) as Hlt.
    rewrite length_rows_of in Hlt.
    rewrite (Hseq i r Hi) in Heq. apply str_nat_inj in Heq. lia.
  - intros p Hp i row Hi.
    rewrite add_product_sheet, rows_of_snoc in Hi.
    apply lookup_app_Some in Hi as [Hi|[Hge Hi]].
    + exact (Hseq i row Hi).
    + rewrite length_rows_of in Hge, Hi.
      destruct (i - length (products_sheet w)) as [|k] eqn:Hk; [|discriminate].
      injection Hi as <-. cbn [product].
      rewrite id_of_dict_values, Hp, read_text_str_nat. f_equal. lia.
Qed.

Lemma generate_new_product_id_fresh_witness :
  exists s,
    generate_new_product_id Sample.studio = (inr s, Sample.studio)
    /\ (forall r, r ∈ rows_of (products_sheet Sample.studio) -> id (product r) <> s)
    /\ forall p, id p = s -> ids_sequential (world_after (add_product p Sample.studio)).
Proof.
  apply (generate_new_product_id_fresh Sample.studio).
  intros i row Hi. destruct i as [|i]; [|discriminate].
  injection Hi as <-. reflexivity.
Defined.

(** X13: each [add_product] moves the next generated id on by one: the id
    generated after it reads as the id generated before it plus one, so the
    two differ. *)
Theorem generate_new_product_id_next (p : Product) (w : World) :
  let w' := world_after (add_product p w) in
  exists s s' n,
    generate_new_product_id w = (inr s, w)
    /\ generate_new_product_id w' = (inr s', w')
    /\ Py.int s = Some n
    /\ Py.int s' = Some (n + 1)%Z
    /\ s <> s'.
Proof.
  intros w'.
  exists (Py.str_nat (length (products_sheet w))),
         (Py.str_nat (length (products_sheet w'))),
         (Z.of_nat (length (products_sheet w))).
  assert (Hlen : length (products_sheet w') = S (length (products_sheet w))).
  { unfold w'. rewrite add_product_sheet, length_app. cbn [length]. lia. }
  split; [apply generate_new_product_id_run|].
  split; [apply generate_new_product_id_run|].
  split; [apply int_str_nat|]. split.
  - rewrite int_str_nat, Hlen. f_equal. lia.
  - intros Heq. apply str_nat_inj in Heq. lia.
Qed.

(** ** Times of day *)

Lemma in_range_bounds (lo hi : nat) (c : ascii) :
  Datetime.in_range lo hi c = true -> lo <= nat_of_ascii c <= hi.
Proof.
  unfold Datetime.in_range. intros H.
  apply andb_prop in H as [Hlo Hhi].
  apply Nat.leb_le in Hlo. apply Nat.leb_le in Hhi. lia.
Qed.

Lemma is_digit_bounds (c : ascii) :
  Py.is_digit c = true -> 48 <= nat_of_ascii c <= 57.
Proof. apply (in_range_bounds 48 57). Qed.

Lemma two_chars_bound (c1 c2 : ascii -> bool) (hi : nat) (s : string)
    (v : N) (r : string) :
  (forall a b, c1 a = true -> c2 b = true ->
               10 * Py.digit_val a + Py.digit_val b <= hi) ->
  (v, r) ∈ Datetime.two_chars c1 c2 s ->
  (v <= N.of_nat hi)%N.
Proof.
  intros Hhi Hin. unfold Datetime.two_chars in Hin.
  destruct s as [|a [|b s]]; try (now apply not_elem_of_nil in Hin).
  destruct (c1 a) eqn:Ha; [|now apply not_elem_of_nil in Hin].
  destruct (c2 b) eqn:Hb; [|now apply not_elem_of_nil in Hin].
  cbn [andb] in Hin. apply list_elem_of_singleton in Hin.
  injection Hin as -> _. specialize (Hhi a b Ha Hb). lia.
Qed.

Lemma one_digit_bound (s : string) (v : N) (r : string) :
  (v, r) ∈ Datetime.one_digit s -> (v <= 9)%N.
Proof.
  unfold Datetime.one_digit. intros Hin.
  destruct s as [|a s]; [now apply not_elem_of_nil in Hin|].
  destruct (Py.is_digit a) eqn:Ha; [|now apply not_elem_of_nil in Hin].
  apply list_elem_of_singleton in Hin. injection Hin as -> _.
  apply is_digit_bounds in Ha. unfold Py.digit_val. lia.
Qed.

Lemma re_H_bound (s : string) (v : N) (r : string) :
  (v, r) ∈ Datetime.re_H s -> (v < 24)%N.
Proof.
  unfold Datetime.re_H. rewrite !elem_of_app.
  intros [Hin|[Hin|Hin]].
  - apply (two_chars_bound _ _ 23) in Hin; [lia|].
    intros a b Ha%in_range_bounds Hb%in_range_bounds. unfold Py.digit_val. lia.
  - apply (two_chars_bound _ _ 19) in Hin; [lia|].
    intros a b Ha%in_range_bounds Hb%is_digit_bounds. unfold Py.digit_val. lia.
  - apply one_digit_bound in Hin. lia.
Qed.

Lemma re_M_bound (s : string) (v : N) (r : string) :
  (v, r) ∈ Datetime.re_M s -> (v < 60)%N.
Proof.
  unfold Datetime.re_M. rewrite !elem_of_app.
  intros [Hin|Hin].
  - apply (two_chars_bound _ _ 59) in Hin; [lia|].
    intros a b Ha%in_range_bounds Hb%is_digit_bounds. unfold Py.digit_val. lia.
  - apply one_digit_bound in Hin. lia.
Qed.

Lemma matches_HMS_bound (s : string) (h m sec : N) (rest : string) :
  (h, m, sec, rest) ∈ Datetime.matches_HMS s -> (h < 24)%N /\ (m < 60)%N.
Proof.
  unfold Datetime.matches_HMS.
  intros Hin.
  apply list_elem_of_bind in Hin as ([h1 r1] & Hin & Hh).
  apply list_elem_of_bind in Hin as (r2 & Hin & _).
  apply list_elem_of_bind in Hin as ([m1 r3] & Hin & Hm).
  apply list_elem_of_bind in Hin as (r4 & Hin & _).
  apply list_elem_of_bind in Hin as ([s1 r5] & Hin & _).
  apply list_elem_of_singleton in Hin. injection Hin as -> -> -> ->.
  split; [eapply re_H_bound | eapply re_M_bound]; eassumption.
Qed.

(** X14: whatever text [strptime] reads under ['%H:%M:%S'], the result is
    a time of day on the default date: the hour is below 24, the minute and
    the second below 60. *)
Theorem strptime_HMS_valid (s : string) (dt : Datetime.datetime) :
  Datetime.strptime_HMS s = Some dt -> valid_time dt.
Proof.
  intros Hparse.
  pose proof (strptime_HMS_second s dt Hparse) as Hsec.
  unfold Datetime.strptime_HMS in Hparse.
  destruct (head (Datetime.matches_HMS s)) as [[[[h m] sec] rest]|] eqn:Hhead;
    [|discriminate].
  apply head_Some_elem_of in Hhead. apply matches_HMS_bound in Hhead as [Hh Hm].
  destruct (negb (String.eqb rest "")); [discriminate|].
  destruct (59 <? sec)%N; [discriminate|].
  injection Hparse as <-. now repeat split.
Qed.

Lemma strptime_HMS_valid_witness :
  valid_time (Datetime.mkDatetime Datetime.default_ordinal 9 5 3).
Proof. apply (strptime_HMS_valid "9:5:3"). reflexivity. Defined.

Lemma all_read_back_true : all_read_back = true.
Proof. vm_compute. reflexivity. Qed.

Lemma in_N_below (n : nat) (x : N) : (x < N.of_nat n)%N -> In x (N_below n).
Proof.
  intros Hlt. unfold N_below.
  rewrite <- (N2Nat.id x). apply in_map. apply in_seq. lia.
Qed.

Lemma datetime_eqb_eq (a b : Datetime.datetime) : datetime_eqb a b = true -> a = b.
Proof.
  unfold datetime_eqb. destruct a, b; cbn.
  intros H. repeat (apply andb_prop in H as [H ?]).
  repeat match goal with E : (_ =? _)%N = true |- _ => apply N.eqb_eq in E end.
  congruence.
Qed.

(** X15: [strptime] reads back what [strftime] writes: for every time of
    day on the default date, parsing its ['%H:%M:%S'] text gives the same
    [datetime]. *)
Theorem strptime_strftime_HMS (dt : Datetime.datetime) :
  valid_time dt ->
  Datetime.strptime_HMS (Datetime.strftime_HMS dt) = Some dt.
Proof.
  intros (Hord & Hh & Hm & Hs). destruct dt as [o h m s]; cbn in *. subst o.
  pose proof all_read_back_true as Hall. unfold all_read_back in Hall.
  rewrite forallb_forall in Hall.
  specialize (Hall h (in_N_below 24 h Hh)). rewrite forallb_forall in Hall.
  specialize (Hall m (in_N_below 60 m Hm)). rewrite forallb_forall in Hall.
  specialize (Hall s (in_N_below 60 s Hs)).
  unfold reads_back in Hall.
  destruct (Datetime.strptime_HMS _) as [dt'|]; [|discriminate].
  now apply datetime_eqb_eq in Hall as ->.
Qed.

Lemma strptime_strftime_HMS_witness :
  Datetime.strptime_HMS
    (Datetime.strftime_HMS (Datetime.mkDatetime Datetime.default_ordinal 23 59 59))
  = Some (Datetime.mkDatetime Datetime.default_ordinal 23 59 59).
Proof.
  apply (strptime_strftime_HMS (Datetime.mkDatetime Datetime.default_ordinal 23 59 59)).
  repeat split.
Defined.

(** X16: for every time that ['%H:%M:%S'] reads, [add_product] creates an
    event that ends on the date of the product at the time of day 45
    minutes after the start, taken modulo 24 hours: the date of the end
    never moves to the next day. *)
Theorem add_product_end_time_of_day (p : Product) (w : World)
    (dt : Datetime.datetime) :
  Datetime.strptime_HMS (time p) = Some dt ->
  exists ev h' m' s',
    add_product p w
    = (inr tt,
       mkWorld (products_sheet w ++ [dict_values p]) (calendar w ++ [ev])
         (urandom w) (urandom_pos w))
    /\ dateTime (ev_end ev)
       = date p +:+ "T"
           +:+ (Py.fmt_02d h' +:+ ":" +:+ Py.fmt_02d m' +:+ ":" +:+ Py.fmt_02d s')
           +:+ "+01:00"
    /\ (h' * 3600 + m' * 60 + s' = (seconds_of_day dt + 45 * 60) mod 86400)%N
    /\ (h' < 24)%N /\ (m' < 60)%N /\ (s' < 60)%N.
Proof.
  intros Hparse.
  eexists _, (Datetime.hour (Datetime.add_minutes dt 45)),
    (Datetime.minute (Datetime.add_minutes dt 45)),
    (Datetime.second (Datetime.add_minutes dt 45)).
  split.
  - unfold add_product, mbind, M_bind, bind, append_row, add_event.
    rewrite Hparse. cbn [or_raise mret M_ret ret products_sheet calendar
                         urandom urandom_pos].
    reflexivity.
  - cbn [ev_end dateTime]. split; [reflexivity|].
    unfold Datetime.add_minutes, seconds_of_day.
    cbn [Datetime.hour Datetime.minute Datetime.second].
    set (total := (Datetime.hour dt * 3600 + Datetime.minute dt * 60
                   + Datetime.second dt + 45 * 60)%N).
    pose proof (N.mod_lt total 86400 ltac:(discriminate)) as Hday.
    set (t := (total mod 86400)%N) in *.
    pose proof (N.div_mod' t 3600) as Hhours.
    pose proof (N.mod_lt t 3600 ltac:(discriminate)) as Hrem.
    pose proof (N.div_mod' (t mod 3600) 60) as Hminutes.
    pose proof (N.mod_lt (t mod 3600) 60 ltac:(discriminate)) as Hsec.
    set (q := (t / 3600)%N) in *.
    set (r := (t mod 3600)%N) in *.
    set (m := (r / 60)%N) in *.
    set (s := (r mod 60)%N) in *.
    repeat split; lia.
Qed.

Lemma add_product_end_time_of_day_witness :
  exists ev h' m' s',
    add_product Sample.late Sample.empty
    = (inr tt,
       mkWorld ([] ++ [dict_values Sample.late]) ([] ++ [ev]) Sample.no_random 0)
    /\ dateTime (ev_end ev)
       = "2024-05-02" +:+ "T"
           +:+ (Py.fmt_02d h' +:+ ":" +:+ Py.fmt_02d m' +:+ ":" +:+ Py.fmt_02d s')
           +:+ "+01:00"
    /\ (h' * 3600 + m' * 60 + s'
        = (seconds_of_day (Datetime.mkDatetime Datetime.default_ordinal 23 30 0)
           + 45 * 60) mod 86400)%N
    /\ (h' < 24)%N /\ (m' < 60)%N /\ (s' < 60)%N.
Proof.
  apply (add_product_end_time_of_day Sample.late Sample.empty
           (Datetime.mkDatetime Datetime.default_ordinal 23 30 0)).
  reflexivity.
Defined.

(** ** Calendar ids *)

Lemma string_app_nil_l (s : string) : "" +:+ s = s.
Proof. reflexivity. Qed.

Lemma string_length_app (a b : string) :
  String.length (a +:+ b) = String.length a + String.length b.
Proof.
  induction a as [|c a IH]; [reflexivity|].
  rewrite string_app_cons. cbn [String.length]. now rewrite IH.
Qed.

Lemma string_forall_app (f : ascii -> bool) (a b : string) :
  string_forall f (a +:+ b) = string_forall f a && string_forall f b.
Proof.
  induction a as [|c a IH]; [reflexivity|].
  rewrite string_app_cons. cbn [string_forall]. now rewrite IH, andb_assoc.
Qed.

Lemma remove_char_app (c : ascii) (a b : string) :
  Py.remove_char c (a +:+ b) = Py.remove_char c a +:+ Py.remove_char c b.
Proof.
  induction a as [|d a IH]; [reflexivity|].
  rewrite string_app_cons. cbn [Py.remove_char].
  destruct (Ascii.eqb d c); [exact IH|].
  now rewrite string_app_cons, IH.
Qed.

Lemma remove_char_hex (s : string) :
  string_forall is_hex_char s = true -> Py.remove_char "-" s = s.
Proof.
  induction s as [|c s IH]; [reflexivity|].
  cbn [string_forall Py.remove_char]. intros H.
  apply andb_prop in H as [Hc Hs].
  destruct (Ascii.eqb_spec c "-") as [->|_]; [discriminate|].
  now rewrite (IH Hs).
Qed.

Lemma substring_split (s : string) (n m k j : nat) :
  j = n + m ->
  String.substring n m s +:+ String.substring j k s
  = String.substring n (m + k) s.
Proof.
  intros ->.
  revert n m. induction s as [|c s IH]; intros [|n] [|m]; cbn; try reflexivity.
  - rewrite string_app_cons. f_equal. exact (IH 0 m).
  - exact (IH n 0).
  - exact (IH n (S m)).
Qed.

Lemma substring_full (s : string) : String.substring 0 (String.length s) s = s.
Proof. induction s as [|c s IH]; [reflexivity|]. cbn. now rewrite IH. Qed.

Lemma hex_length (k : nat) (n : N) : String.length (Uuid.hex k n) = k.
Proof.
  revert n. induction k as [|k IH]; intros n; [reflexivity|].
  cbn [Uuid.hex]. rewrite string_length_app, IH. cbn. lia.
Qed.

Lemma hex_digit_is_hex (m : N) : (m < 16)%N -> is_hex_char (Uuid.hex_digit m) = true.
Proof.
  intros Hm.
  assert (Hall : forallb (fun x => is_hex_char (Uuid.hex_digit x)) (N_below 16) = true)
    by (vm_compute; reflexivity).
  rewrite forallb_forall in Hall. apply Hall. now apply (in_N_below 16).
Qed.

Lemma hex_all_hex (k : nat) (n : N) : string_forall is_hex_char (Uuid.hex k n) = true.
Proof.
  revert n. induction k as [|k IH]; intros n; [reflexivity|].
  cbn [Uuid.hex]. rewrite string_forall_app, IH. cbn [string_forall andb].
  rewrite hex_digit_is_hex; [reflexivity|].
  apply N.mod_lt. discriminate.
Qed.

(** Removing the separators of the text of a UUID leaves its 32 digits. *)
Lemma remove_char_uuid_str (n : N) :
  Py.remove_char "-" (Uuid.str n) = Uuid.hex 32 n.
Proof.
  unfold Uuid.str. cbv zeta.
  set (h := Uuid.hex 32 n).
  assert (Hlen : String.length h = 32) by apply hex_length.
  assert (Hhex : string_forall is_hex_char h = true) by apply hex_all_hex.
  assert (Hpieces :
            String.substring 0 8 h +:+ String.substring 8 4 h
              +:+ String.substring 12 4 h +:+ String.substring 16 4 h
              +:+ String.substring 20 12 h = h).
  { rewrite (substring_split h 16 4 12 20 eq_refl).
    rewrite (substring_split h 12 4 (4 + 12) 16 eq_refl).
    rewrite (substring_split h 8 4 (4 + (4 + 12)) 12 eq_refl).
    rewrite (substring_split h 0 8 (4 + (4 + (4 + 12))) 8 eq_refl).
    change (8 + (4 + (4 + (4 + 12)))) with 32.
    rewrite <- Hlen. apply substring_full. }
  rewrite !remove_char_app.
  change (Py.remove_char "-" "-") with "".
  rewrite !string_app_nil_l.
  rewrite <- !remove_char_app, Hpieces.
  now apply remove_char_hex.
Qed.

(** The hexadecimal digit at index [i] of ['%0kx' % n]. *)
Lemma hex_get (k i : nat) (n : N) :
  i < k ->
  String.get i (Uuid.hex k n)
  = Some (Uuid.hex_digit ((n / 16 ^ N.of_nat (k - 1 - i)) mod 16)%N).
Proof.
  revert n i. induction k as [|k IH]; intros n i Hi; [lia|].
  cbn [Uuid.hex].
  destruct (decide (i = k)) as [->|Hne].
  - rewrite <- (hex_length k (n / 16)) at 1.
    rewrite <- (append_correct2 (Uuid.hex k (n / 16)) _ 0).
    replace (S k - 1 - k) with 0 by lia.
    cbn [String.get N.of_nat]. now rewrite N.pow_0_r, N.div_1_r.
  - rewrite <- append_correct1 by (rewrite hex_length; lia).
    rewrite IH by lia.
    replace (S k - 1 - i) with (S (k - 1 - i)) by lia.
    rewrite Nat2N.inj_succ, N.pow_succ_r', N.Div0.div_div.
    reflexivity.
Qed.

Lemma set_version4_bit (n : N) (i : N) :
  N.testbit (Uuid.set_version4 n) i
  = (((N.testbit n i && negb (N.testbit (N.shiftl 49152 48) i))
      || N.testbit (N.shiftl 32768 48) i)
     && negb (N.testbit (N.shiftl 61440 64) i))
    || N.testbit (N.shiftl 4 76) i.
Proof.
  unfold Uuid.set_version4. cbv zeta.
  now rewrite !N.lor_spec, !N.ldiff_spec, !N.lor_spec, !N.ldiff_spec.
Qed.

(** The version digit is 4. *)
Lemma set_version4_version (n : N) :
  ((Uuid.set_version4 n / 16 ^ 19) mod 16 = 4)%N.
Proof.
  change (16 ^ 19)%N with (2 ^ 76)%N. change 16%N with (2 ^ 4)%N.
  apply N.bits_inj. intros i.
  destruct (N.lt_ge_cases i 4) as [Hlt|Hge].
  - rewrite N.mod_pow2_bits_low by exact Hlt.
    rewrite N.div_pow2_bits, set_version4_bit.
    assert (Hi : i = 0%N \/ i = 1%N \/ i = 2%N \/ i = 3%N) by lia.
    destruct Hi as [-> | [-> | [-> | ->]]]; cbn [N.add Pos.add];
      destruct (N.testbit n _); reflexivity.
  - rewrite N.mod_pow2_bits_high by exact Hge.
    symmetry. apply N.bits_above_log2. cbn. lia.
Qed.

(** The variant digit is one of 8, 9, a and b. *)
Lemma set_version4_variant (n : N) :
  (8 <= (Uuid.set_version4 n / 16 ^ 15) mod 16 < 12)%N.
Proof.
  set (v := ((Uuid.set_version4 n / 16 ^ 15) mod 16)%N).
  assert (H3 : N.testbit v 3 = true).
  { unfold v. change (16 ^ 15)%N with (2 ^ 60)%N. change 16%N with (2 ^ 4)%N.
    rewrite N.mod_pow2_bits_low by lia.
    rewrite N.div_pow2_bits, set_version4_bit. cbn [N.add Pos.add].
    destruct (N.testbit n _); reflexivity. }
  assert (H2 : N.testbit v 2 = false).
  { unfold v. change (16 ^ 15)%N with (2 ^ 60)%N. change 16%N with (2 ^ 4)%N.
    rewrite N.mod_pow2_bits_low by lia.
    rewrite N.div_pow2_bits, set_version4_bit. cbn [N.add Pos.add].
    destruct (N.testbit n _); reflexivity. }
  assert (Hv : (v < 16)%N) by (apply N.mod_lt; discriminate).
  clearbody v.
  assert (Hcases : In v (N_below 16)) by now apply (in_N_below 16).
  cbn in Hcases.
  repeat (destruct Hcases as [<-|Hcases];
          [try discriminate H3; try discriminate H2; try lia|]).
  contradiction.
Qed.

(** X17: [generate_calendar_id] returns 32 lowercase hexadecimal digits,
    with no dash left; the digit at index 12 is the version [4] and the
    digit at index 16 is one of [8], [9], [a] and [b].  The call reads the
    random source once and leaves worksheet and calendar as they were. *)
Theorem generate_calendar_id_format (w : World) :
  exists s v,
    generate_calendar_id w
    = (inr s,
       mkWorld (products_sheet w) (calendar w) (urandom w) (S (urandom_pos w)))
    /\ String.length s = 32
    /\ string_forall is_hex_char s = true
    /\ String.get 12 s = Some "4"%char
    /\ String.get 16 s = Some v
    /\ v ∈ ["8"; "9"; "a"; "b"]%char.
Proof.
  set (u := Uuid.set_version4 (urandom w (urandom_pos w) mod 2 ^ 128)%N).
  exists (Uuid.hex 32 u),
         (Uuid.hex_digit ((u / 16 ^ 15) mod 16)%N).
  split; [|split; [|split; [|split; [|split]]]].
  - unfold generate_calendar_id, Uuid.uuid4, Uuid.urandom16, mbind, M_bind, bind.
    cbn [mret M_ret ret]. fold u. now rewrite remove_char_uuid_str.
  - apply hex_length.
  - apply hex_all_hex.
  - rewrite hex_get by lia. change (N.of_nat (32 - 1 - 12)) with 19%N.
    unfold u. now rewrite set_version4_version.
  - rewrite hex_get by lia. reflexivity.
  - pose proof (set_version4_variant (urandom w (urandom_pos w) mod 2 ^ 128)%N) as Hv.
    fold u in Hv.
    set (d := ((u / 16 ^ 15) mod 16)%N) in *. clearbody d.
    assert (Hd : d = 8%N \/ d = 9%N \/ d = 10%N \/ d = 11%N) by lia.
    destruct Hd as [-> | [-> | [-> | ->]]]; cbn;
      repeat (first [apply list_elem_of_here | apply list_elem_of_further]).
Qed.
